(* ===================================================================== *)
(*  CropAbility / PGL: the element-wise add operator and its glue        *)
(*                                                                       *)
(*  Shallow embedding of                                                 *)
(*    pgl/ops/add.py    add_kernel, triton_add, pytorch_add, add         *)
(*    pgl/test.py       kernel, add_tensors                              *)
(*    pgl/ops/export.py export_torchscript_model, test_exported_model,   *)
(*                      TritonAddModule.forward                          *)
(*    pgl/ops/test.py   benchmark_add_operations, validate_correctness   *)
(*                                                                       *)
(*  Modelling conventions                                                *)
(*   - A tensor is a handle (shape, dtype, device, data_ptr) on a buffer *)
(*     of the store; buffers are contiguous, element i of the tensor is  *)
(*     cell i of its buffer (the only layout the repository creates:     *)
(*     torch.randn / zeros / ones / full / empty_like).                  *)
(*   - Python and Triton index arithmetic is on unbounded naturals       *)
(*     (no 32-bit wrap of program ids or offsets).                       *)
(*   - Element values are abstract; the scalar addition of a dtype and   *)
(*     the conversion between dtypes are parameters of the development.  *)
(*   - One accelerator; no resource exhaustion.                          *)
(*   - The state keeps every record the code hands to [logging] (before  *)
(*     any filtering by level) and every call it makes to a collaborator *)
(*     (serialization, random generator, clock, barriers).               *)
(*   - The failures of the serialization library are part of the state:  *)
(*     [faults] says which of trace, script, save and load will raise.   *)
(*   - The programs of a grid run one after the other by increasing id;  *)
(*     [run_grid_any_order] shows that the order does not matter.        *)
(* ===================================================================== *)

From stdpp Require Import gmap strings list fin_maps pretty.
From Stdlib Require Import QArith.

Local Open Scope nat_scope.

Set Default Proof Using "Type".
Set Warnings "-abstract-large-number".

(* --------------------------------------------------------------------- *)
(*  Tensors as the code sees them                                        *)
(* --------------------------------------------------------------------- *)

(** The real numeric element types of the host library. *)
Inductive DType :=
  | UInt8 | Int8 | Int16 | Int32 | Int64
  | Float16 | BFloat16 | Float32 | Float64.

#[global] Instance DType_eq_dec : EqDecision DType.
Proof. solve_decision. Defined.

(** Residency tag: [x.is_cuda] is the only thing the code asks of it. *)
Inductive Device := Cpu | Cuda.

#[global] Instance Device_eq_dec : EqDecision Device.
Proof. solve_decision. Defined.

Record Tensor := mkTensor {
  shape : list nat;
  dtype : DType;
  device : Device;
  data_ptr : nat
}.

Definition is_cuda (t : Tensor) : bool := bool_decide (device t = Cuda).

(** [x.numel()] *)
Definition numel (t : Tensor) : nat := foldr Nat.mul 1 (shape t).

(** [x.dim()] *)
Definition dim (t : Tensor) : nat := length (shape t).

(** Python exceptions that the modelled code can raise. *)
Inductive Exn :=
  | AssertionError (msg : string)
  | RuntimeError (msg : string)
  | ValueError (msg : string)
  | UnboundLocalError (msg : string).

(** [str(e)] *)
Definition str (e : Exn) : string :=
  match e with
  | AssertionError m | RuntimeError m | ValueError m | UnboundLocalError m => m
  end.

Inductive Level := DEBUG | INFO | WARNING | ERROR.

Record LogRecord := mkLog { lvl : Level; msg : string }.

(** Outcome of a Python call: a value, or a raised exception. *)
Inductive Res (A : Type) :=
  | Ok (a : A)
  | Raise (e : Exn).
Arguments Ok {A} a.
Arguments Raise {A} e.

Definition is_ok {A} (r : Res A) : bool :=
  match r with Ok _ => true | Raise _ => false end.

(** [triton.cdiv(x, y)]: [(x + y - 1) // y]. *)
Definition cdiv (x y : nat) : nat := (x + y - 1) / y.

Arguments cdiv : simpl never.
Arguments numel : simpl never.

(* --------------------------------------------------------------------- *)
(*  The host library's element-wise binary operators (torch.add)         *)
(* --------------------------------------------------------------------- *)

Definition is_floating (d : DType) : bool :=
  match d with
  | Float16 | BFloat16 | Float32 | Float64 => true
  | _ => false
  end.

(** [torch.promote_types] on the real numeric types. *)
Definition promote_types (a b : DType) : DType :=
  match a, b with
  | Float64, _ | _, Float64 => Float64
  | Float32, _ | _, Float32 => Float32
  | Float16, BFloat16 | BFloat16, Float16 => Float32
  | Float16, _ | _, Float16 => Float16
  | BFloat16, _ | _, BFloat16 => BFloat16
  | Int64, _ | _, Int64 => Int64
  | Int32, _ | _, Int32 => Int32
  | Int16, _ | _, Int16 => Int16
  | UInt8, Int8 | Int8, UInt8 => Int16
  | UInt8, UInt8 => UInt8
  | Int8, Int8 => Int8
  end.

(** A dimensioned operand takes precedence over a zero-dimensional one
    unless the latter is of a higher category (floating over integer). *)
Definition combine_categories (higher lower : DType) : DType :=
  if is_floating higher then higher
  else if is_floating lower then promote_types higher lower
  else higher.

(** [torch.result_type(x, y)] for two tensors. *)
Definition result_type (x y : Tensor) : DType :=
  match bool_decide (dim x = 0), bool_decide (dim y = 0) with
  | false, true => combine_categories (dtype x) (dtype y)
  | true, false => combine_categories (dtype y) (dtype x)
  | _, _ => promote_types (dtype x) (dtype y)
  end.

(** Broadcasting of two sizes read from the last dimension backwards. *)
Fixpoint broadcast_rev (a b : list nat) : option (list nat) :=
  match a, b with
  | [], _ => Some b
  | _, [] => Some a
  | m :: a', n :: b' =>
      r ← broadcast_rev a' b';
      if decide (m = n) then Some (m :: r)
      else if decide (m = 1) then Some (n :: r)
      else if decide (n = 1) then Some (m :: r)
      else None
  end.

(** [torch.broadcast_shapes(a, b)]; [None] when the sizes do not match. *)
Definition broadcast_shapes (a b : list nat) : option (list nat) :=
  reverse <$> broadcast_rev (reverse a) (reverse b).

(** A size padded on the left with ones up to [rank] dimensions. *)
Definition pad_shape (rank : nat) (s : list nat) : list nat :=
  replicate (rank - length s) 1 ++ s.

(** A tensor on the host with no dimension: the one operand a binary
    operator accepts next to an accelerator tensor. *)
Definition is_cpu_scalar (t : Tensor) : bool :=
  bool_decide (dim t = 0) && bool_decide (device t = Cpu).

Definition common_device (x y : Tensor) : Device :=
  if is_cpu_scalar x then device y else device x.

Definition same_device (x y : Tensor) : bool :=
  (bool_decide (device x = common_device x y) || is_cpu_scalar x)
  && (bool_decide (device y = common_device x y) || is_cpu_scalar y).

(* --------------------------------------------------------------------- *)
(*  The serialization library and the other collaborators                *)
(* --------------------------------------------------------------------- *)

(** The computation graph that tracing or scripting [TritonAddModule]
    captures: the library's add of the two inputs. *)
Inductive Graph := AtenAdd.

(** [torch.jit.ScriptModule] *)
Record ScriptModule := mkScript { graph : Graph }.

(** pgl/ops/export.py, [class TritonAddModule]: it has no state. *)
Inductive Module := TritonAddModule.

(** Something that can be called on two tensors. *)
Inductive Callable :=
  | Eager (m : Module)
  | Jit (sm : ScriptModule).

(** The steps of the serialization library that can fail. *)
Inductive JitOp := JitTrace | JitScript | JitSave | JitLoad.

(** Calls into collaborators, in the order they are made. *)
Inductive Call :=
  | CBasicConfig (l : Level)
  | CSetLevel (name : string) (l : Level)
  | CEval (m : Module)
  | CRandn (t : Tensor)
  | CJitTrace (m : Module) (example_x example_y : Tensor)
  | CJitScript (m : Module)
  | CSave (sm : ScriptModule) (path : string)
  | CLoad (path : string)
  | CForward (f : Callable) (x y : Tensor)
  | CAllclose (a b : Tensor) (atol : Q) (result : bool)
  | CPrintExc (e : Exn)
  | CSynchronize
  | CPerfCounter.

(** The tolerance [1e-6]. *)
Definition atol_1e_6 : Q := 1 # 1000000.

(** [f"{sizes}"] for a list of integers. *)
Definition str_list (l : list nat) : string :=
  "[" +:+ String.concat ", " (pretty <$> l) +:+ "]".

Section Pgl.

(** Scalar values held in buffers, the addition of each element type and
    the conversion of a value from one element type to another. *)
Variable elt : Type.
Variable eadd : DType → elt → elt → elt.
Variable cast : DType → DType → elt → elt.
(** What a Python float literal becomes in an element type. *)
Variable lit : Q → DType → elt.
(** Triton's result type of a binary arithmetic operator. *)
Variable tl_promote : DType → DType → DType.

(** Cell [i] of the [k]-th tensor drawn from the random generator. *)
Variable randn_sample : nat → nat → elt.
(** [torch.allclose] of two lists of cells at an absolute tolerance (the
    relative tolerance is the library's default). *)
Variable allclose : list elt → list elt → Q → bool.

(** Python floats: the readings of the clock and what is computed from
    them. *)
Variable flt : Type.
Variable perf_counter_reading : nat → flt.
Variables fsub fmul fdiv : flt → flt → flt.
Variable np_mean : list flt → flt.
Variable flt_of_nat : nat → flt.
Variable flt_inf : flt.
Variable flt_pos : flt → bool.
(** [torch.max(torch.abs(a - b)).item()] on two non-empty lists of cells. *)
Variable max_abs_diff : list elt → list elt → flt.
(** [f"{v:spec}"] *)
Variable format_float : string → flt → string.

Hypothesis cast_same : ∀ d v, cast d d v = v.
Hypothesis tl_promote_same : ∀ d, tl_promote d d = d.

(** The literal [0.0] of [other=0.0]. *)
Definition zero (d : DType) : elt := lit 0%Q d.

(* --------------------------------------------------------------------- *)
(*  The store                                                            *)
(* --------------------------------------------------------------------- *)

(** The process state the code reads and writes: whether an accelerator
    is present, the buffers behind the tensors, what a cell of freshly
    allocated (uninitialised) memory happens to hold, the records emitted
    through [logging], how many tensors were drawn from the random
    generator, how often the clock was read, the artifacts on disk, the
    failures the serialization library is going to report, and the calls
    made to collaborators. *)
Record World := mkWorld {
  cuda_available : bool;
  memory : gmap nat (list elt);
  uninit : nat → elt;
  log : list LogRecord;
  rng : nat;
  clock : nat;
  files : gmap string Graph;
  faults : JitOp → option Exn;
  calls : list Call
}.

Definition set_memory (m : gmap nat (list elt)) (w : World) : World :=
  mkWorld (cuda_available w) m (uninit w) (log w) (rng w) (clock w) (files w)
    (faults w) (calls w).

Definition add_log (r : LogRecord) (w : World) : World :=
  mkWorld (cuda_available w) (memory w) (uninit w) (log w ++ [r]) (rng w) (clock w)
    (files w) (faults w) (calls w).

Definition add_call (c : Call) (w : World) : World :=
  mkWorld (cuda_available w) (memory w) (uninit w) (log w) (rng w) (clock w)
    (files w) (faults w) (calls w ++ [c]).

Definition next_rng (w : World) : World :=
  mkWorld (cuda_available w) (memory w) (uninit w) (log w) (S (rng w)) (clock w)
    (files w) (faults w) (calls w).

Definition tick (w : World) : World :=
  mkWorld (cuda_available w) (memory w) (uninit w) (log w) (rng w) (S (clock w))
    (files w) (faults w) (calls w).

Definition write_file (path : string) (g : Graph) (w : World) : World :=
  mkWorld (cuda_available w) (memory w) (uninit w) (log w) (rng w) (clock w)
    (<[path := g]> (files w)) (faults w) (calls w).

(** The cells of a tensor, when its buffer is live. *)
Definition data (w : World) (t : Tensor) : option (list elt) :=
  memory w !! data_ptr t.

(** A tensor is valid in a world when its buffer is live and holds
    exactly [numel] cells. *)
Definition valid (w : World) (t : Tensor) : Prop :=
  ∃ cells, data w t = Some cells ∧ length cells = numel t.

(* --------------------------------------------------------------------- *)
(*  Python computations: state and exceptions                            *)
(* --------------------------------------------------------------------- *)

Definition Py (A : Type) : Type := World → Res A * World.

Definition ret {A} (a : A) : Py A := λ w, (Ok a, w).

Definition bind {A B} (m : Py A) (k : A → Py B) : Py B :=
  λ w, match m w with
       | (Ok a, w') => k a w'
       | (Raise e, w') => (Raise e, w')
       end.

Definition raise {A} (e : Exn) : Py A := λ w, (Raise e, w).

(** [try: body except Exception as e: handler(e)] *)
Definition try_except {A} (body : Py A) (handler : Exn → Py A) : Py A :=
  λ w, match body w with
       | (Ok a, w') => (Ok a, w')
       | (Raise e, w') => handler e w'
       end.

(** [assert c, msg] *)
Definition assert (c : bool) (m : string) : Py unit :=
  if c then ret tt else raise (AssertionError m).

Definition get {A} (f : World → A) : Py A := λ w, (Ok (f w), w).

Definition modify (f : World → World) : Py unit := λ w, (Ok tt, f w).

#[local] Instance Py_ret : MRet Py := @ret.
#[local] Instance Py_bind : MBind Py := λ A B k m, bind m k.

(** [logging.warning(msg)] and friends. *)
Definition logging (l : Level) (m : string) : Py unit :=
  modify (add_log (mkLog l m)).

(** [torch.cuda.is_available()] *)
Definition torch_cuda_is_available : Py bool := get cuda_available.

(** [torch.empty_like(x)]: a fresh buffer of [numel x] uninitialised
    cells, with the shape, dtype and device of [x]. *)
Definition torch_empty_like (x : Tensor) : Py Tensor :=
  λ w, let p := fresh (dom (memory w)) in
       (Ok (mkTensor (shape x) (dtype x) (device x) p),
        set_memory (<[p := uninit w <$> seq 0 (numel x)]> (memory w)) w).

(* --------------------------------------------------------------------- *)
(*  Triton: blocks of lanes, masked loads and stores                     *)
(* --------------------------------------------------------------------- *)

(** What a lane does to memory: which cell of which buffer it reads or
    writes. *)
Inductive Access :=
  | Load (buf off : nat)
  | Store (buf off : nat).

(** The device: the buffers, and the accesses made so far. *)
Record DevState := mkDev {
  cells : gmap nat (list elt);
  trace : list Access
}.

(** Device code; [None] is an illegal memory access. *)
Definition Dev (A : Type) : Type := DevState → option (A * DevState).

Definition dbind {A B} (c : Dev A) (k : A → Dev B) : Dev B :=
  λ s, match c s with Some (a, s') => k a s' | None => None end.

#[local] Instance Dev_bind : MBind Dev := λ A B k c, dbind c k.

(** A pointer to elements of type [p_dtype] inside buffer [p_buf]. *)
Record Ptr := mkPtr { p_buf : nat; p_dtype : DType; p_off : nat }.

(** A block of values of one element type, one value per lane. *)
Record Block := mkBlock { b_dtype : DType; b_vals : list elt }.

(** [tl.arange(start, stop)] *)
Definition tl_arange (start stop : nat) : list nat := seq start (stop - start).

(** [ptr + offsets] *)
Definition ptr_add (p : Ptr) (offsets : list nat) : list Ptr :=
  (λ o, mkPtr (p_buf p) (p_dtype p) (p_off p + o)) <$> offsets.

(** The accesses of a masked operation: one per lane whose mask is true. *)
Fixpoint touched (kind : nat → nat → Access) (ps : list Ptr) (mask : list bool)
    : list Access :=
  match ps, mask with
  | p :: ps', mk :: mask' =>
      (if mk then [kind (p_buf p) (p_off p)] else []) ++ touched kind ps' mask'
  | _, _ => []
  end.

Definition load_lane (m : gmap nat (list elt)) (p : Ptr) (mk : bool) (other : elt)
    : option elt :=
  if mk then m !! p_buf p ≫= (λ buf, buf !! p_off p) else Some other.

Fixpoint load_lanes (m : gmap nat (list elt)) (ps : list Ptr) (mask : list bool)
    (other : elt) : option (list elt) :=
  match ps, mask with
  | p :: ps', mk :: mask' =>
      v ← load_lane m p mk other;
      vs ← load_lanes m ps' mask' other;
      Some (v :: vs)
  | _, _ => Some []
  end.

(** [tl.load(ptrs, mask=mask, other=0.0)]: lanes whose mask is false do
    not touch memory and receive [other]. *)
Definition tl_load (d : DType) (ps : list Ptr) (mask : list bool) : Dev Block :=
  λ s, vs ← load_lanes (cells s) ps mask (zero d);
       Some (mkBlock d vs, mkDev (cells s) (trace s ++ touched Load ps mask)).

(** [x + y] on blocks: both sides are converted to the promoted type. *)
Definition tl_add (x y : Block) : Block :=
  let d := tl_promote (b_dtype x) (b_dtype y) in
  mkBlock d (zip_with (λ a b, eadd d (cast (b_dtype x) d a) (cast (b_dtype y) d b))
               (b_vals x) (b_vals y)).

Definition store_lane (m : gmap nat (list elt)) (p : Ptr) (v : elt) (mk : bool)
    : option (gmap nat (list elt)) :=
  if mk then
    buf ← m !! p_buf p;
    if decide (p_off p < length buf)
    then Some (<[p_buf p := <[p_off p := v]> buf]> m)
    else None
  else Some m.

Fixpoint store_lanes (m : gmap nat (list elt)) (ps : list Ptr) (vs : list elt)
    (mask : list bool) : option (gmap nat (list elt)) :=
  match ps, vs, mask with
  | p :: ps', v :: vs', mk :: mask' =>
      m' ← store_lane m p v mk;
      store_lanes m' ps' vs' mask'
  | _, _, _ => Some m
  end.

(** [tl.store(ptrs, value, mask=mask)]: the value is converted to the
    pointee type; lanes whose mask is false write nothing. *)
Definition tl_store (d : DType) (ps : list Ptr) (v : Block) (mask : list bool) : Dev unit :=
  λ s, m' ← store_lanes (cells s) ps (cast (b_dtype v) d <$> b_vals v) mask;
       Some (tt, mkDev m' (trace s ++ touched Store ps mask)).

(** pgl/ops/add.py, [add_kernel]; the program id is the last argument. *)
Definition add_kernel (x_ptr y_ptr output_ptr : Ptr) (n_elements BLOCK_SIZE : nat)
    (pid : nat) : Dev unit :=
  let block_start := pid * BLOCK_SIZE in
  let offsets := (λ k, block_start + k) <$> tl_arange 0 BLOCK_SIZE in
  let mask := (λ o, bool_decide (o < n_elements)) <$> offsets in
  x ← tl_load (p_dtype x_ptr) (ptr_add x_ptr offsets) mask;
  y ← tl_load (p_dtype y_ptr) (ptr_add y_ptr offsets) mask;
  let output := tl_add x y in
  tl_store (p_dtype output_ptr) (ptr_add output_ptr offsets) output mask.

(** pgl/test.py, [kernel]: the block size 128 is written in the body. *)
Definition kernel (X Y Z : Ptr) (N : nat) (pid : nat) : Dev unit :=
  let block_start := pid * 128 in
  let offsets := (λ k, block_start + k) <$> tl_arange 0 128 in
  let mask := (λ o, bool_decide (o < N)) <$> offsets in
  x ← tl_load (p_dtype X) (ptr_add X offsets) mask;
  y ← tl_load (p_dtype Y) (ptr_add Y offsets) mask;
  let z := tl_add x y in
  tl_store (p_dtype Z) (ptr_add Z offsets) z mask.

(** The programs of a one-dimensional grid, run one after the other. *)
Fixpoint run_grid (prog : nat → Dev unit) (pids : list nat) (s : DevState)
    : option DevState :=
  match pids with
  | [] => Some s
  | pid :: rest =>
      match prog pid s with
      | Some (_, s') => run_grid prog rest s'
      | None => None
      end
  end.

(** How the launcher passes a tensor to a kernel: its data pointer. *)
Definition as_ptr (t : Tensor) : Ptr := mkPtr (data_ptr t) (dtype t) 0.

(** [kern[grid](tensors..., ...)]: the launcher refuses a tensor that is
    not on the accelerator; an illegal access surfaces as a runtime
    error. *)
Definition launch (grid : nat) (args : list Tensor) (prog : nat → Dev unit) : Py unit :=
  if forallb is_cuda args then
    λ w, match run_grid prog (seq 0 grid) (mkDev (memory w) []) with
         | Some s' => (Ok tt, set_memory (cells s') w)
         | None =>
             (Raise (RuntimeError "CUDA error: an illegal memory access was encountered"), w)
         end
  else raise (ValueError "Pointer argument cannot be accessed from Triton (cpu tensor?)").

(** pgl/ops/add.py, [triton_add]. *)
Definition triton_add (x y : Tensor) : Py Tensor :=
  assert (bool_decide (shape x = shape y)) "输入张量形状必须相同";;
  assert (is_cuda x && is_cuda y) "输入张量必须在CUDA设备上";;
  assert (bool_decide (dtype x = dtype y)) "输入张量数据类型必须相同";;
  output ← torch_empty_like x;
  let n_elements := numel output in
  let BLOCK_SIZE := 1024 in
  let grid := cdiv n_elements BLOCK_SIZE in
  launch grid [x; y; output]
    (add_kernel (as_ptr x) (as_ptr y) (as_ptr output) n_elements 1024);;
  ret output.

(** pgl/test.py, [add_tensors]. *)
Definition add_tensors (X Y : Tensor) : Py Tensor :=
  assert (bool_decide (shape X = shape Y)) "";;
  let N := numel X in
  Z ← torch_empty_like X;
  let grid := cdiv N 128 in
  launch grid [X; Y; Z] (kernel (as_ptr X) (as_ptr Y) (as_ptr Z) N);;
  ret Z.

(* --------------------------------------------------------------------- *)
(*  The fallback and the dispatcher                                      *)
(* --------------------------------------------------------------------- *)

(** The row-major cells of an operand of size [s] expanded to size [t]
    (of the same rank): a dimension of size one is repeated. *)
Fixpoint expand (s t : list nat) (buf : list elt) : list elt :=
  match s, t with
  | a :: s', b :: t' =>
      let m := foldr Nat.mul 1 s' in
      mjoin ((λ k, expand s' t' (take m (drop ((if decide (a = 1) then 0 else k) * m) buf)))
               <$> seq 0 b)
  | _, _ => buf
  end.

(** [torch.add(x, y)]: sizes are broadcast, element types promoted, both
    operands must live on one device (a zero-dimensional host tensor
    excepted); the result is a new tensor. *)
Definition torch_add (x y : Tensor) : Py Tensor :=
  match broadcast_shapes (shape x) (shape y) with
  | None =>
      raise (RuntimeError
        "The size of tensor a must match the size of tensor b at non-singleton dimension")
  | Some s =>
      if same_device x y then
        λ w, let d := result_type x y in
             let xs := expand (pad_shape (length s) (shape x)) s (default [] (data w x)) in
             let ys := expand (pad_shape (length s) (shape y)) s (default [] (data w y)) in
             let p := fresh (dom (memory w)) in
             (Ok (mkTensor s d (common_device x y) p),
              set_memory (<[p := zip_with (λ a b, eadd d (cast (dtype x) d a) (cast (dtype y) d b))
                                    xs ys]> (memory w)) w)
      else
        raise (RuntimeError "Expected all tensors to be on the same device")
  end.

(** pgl/ops/add.py, [pytorch_add]. *)
Definition pytorch_add (x y : Tensor) : Py Tensor := torch_add x y.

(** pgl/ops/add.py, [add]. *)
Definition add (x y : Tensor) (use_triton : bool) : Py Tensor :=
  c ← (if use_triton && is_cuda x && is_cuda y
       then torch_cuda_is_available else mret false);
  if c : bool then
    try_except (triton_add x y)
      (λ e, logging WARNING ("Triton加法失败，回退到PyTorch: " +:+ str e);;
            pytorch_add x y)
  else
    pytorch_add x y.

(** What a caller can observe of a returned tensor: its size, element
    type, device and cells. *)
Definition value (w : World) (t : Tensor) : list nat * DType * Device * option (list elt) :=
  (shape t, dtype t, device t, data w t).

Definition outcome (r : Res Tensor * World) : Res (list nat * DType * Device * option (list elt)) :=
  match r with
  | (Ok t, w) => Ok (value w t)
  | (Raise e, _) => Raise e
  end.

(* --------------------------------------------------------------------- *)
(*  Collaborators: tensor factories, comparison, clock, serialization    *)
(* --------------------------------------------------------------------- *)

Definition call (c : Call) : Py unit := modify (add_call c).

(** A new buffer holding the given cells, as a tensor of one dimension. *)
Definition alloc_tensor (n : nat) (d : DType) (dev : Device) (buf : nat → elt) : Py Tensor :=
  λ w, let p := fresh (dom (memory w)) in
       (Ok (mkTensor [n] d dev p), set_memory (<[p := buf <$> seq 0 n]> (memory w)) w).

(** A factory call: a tensor cannot be created on an accelerator that is
    not there. *)
Definition new_tensor (n : nat) (d : DType) (dev : Device) (buf : nat → elt) : Py Tensor :=
  avail ← torch_cuda_is_available;
  if bool_decide (dev = Cuda) && negb avail
  then raise (RuntimeError "Found no NVIDIA driver on your system")
  else alloc_tensor n d dev buf.

(** [torch.randn(n, device=dev, dtype=d)]: the next draw of the
    generator. *)
Definition torch_randn (n : nat) (d : DType) (dev : Device) : Py Tensor :=
  k ← get rng;
  t ← new_tensor n d dev (randn_sample k);
  modify next_rng;;
  call (CRandn t);;
  mret t.

(** [torch.full((n,), v, device=dev, dtype=d)]; [torch.zeros] and
    [torch.ones] are the cases 0 and 1. *)
Definition torch_full (n : nat) (v : Q) (d : DType) (dev : Device) : Py Tensor :=
  new_tensor n d dev (λ _, lit v d).

Definition torch_zeros (n : nat) (d : DType) (dev : Device) : Py Tensor :=
  torch_full n 0%Q d dev.

Definition torch_ones (n : nat) (d : DType) (dev : Device) : Py Tensor :=
  torch_full n 1%Q d dev.

(** [torch.allclose(a, b, atol=atol)]: the operands are broadcast like
    those of any binary operator, then compared. *)
Definition torch_allclose (a b : Tensor) (atol : Q) : Py bool :=
  match broadcast_shapes (shape a) (shape b) with
  | None =>
      raise (RuntimeError
        "The size of tensor a must match the size of tensor b at non-singleton dimension")
  | Some s =>
      if same_device a b then
        xs ← get (λ w, expand (pad_shape (length s) (shape a)) s (default [] (data w a)));
        ys ← get (λ w, expand (pad_shape (length s) (shape b)) s (default [] (data w b)));
        let r := allclose xs ys atol in
        call (CAllclose a b atol r);;
        mret r
      else
        raise (RuntimeError "Expected all tensors to be on the same device")
  end.

(** [torch.max(torch.abs(a - b)).item()]: the maximum of no element is
    an error. *)
Definition torch_max_abs_diff (a b : Tensor) : Py flt :=
  match broadcast_shapes (shape a) (shape b) with
  | None =>
      raise (RuntimeError
        "The size of tensor a must match the size of tensor b at non-singleton dimension")
  | Some s =>
      if same_device a b then
        if bool_decide (foldr Nat.mul 1 s = 0) then
          raise (RuntimeError "max(): Expected reduction dim to be specified for input.numel() == 0")
        else
          xs ← get (λ w, expand (pad_shape (length s) (shape a)) s (default [] (data w a)));
          ys ← get (λ w, expand (pad_shape (length s) (shape b)) s (default [] (data w b)));
          mret (max_abs_diff xs ys)
      else
        raise (RuntimeError "Expected all tensors to be on the same device")
  end.

(** [torch.cuda.synchronize()] *)
Definition torch_cuda_synchronize : Py unit := call CSynchronize.

(** [time.perf_counter()] *)
Definition time_perf_counter : Py flt :=
  k ← get clock;
  modify tick;;
  call CPerfCounter;;
  mret (perf_counter_reading k).

(** Reading a local variable that may not have been assigned yet. *)
Definition local {A} (name : string) (v : option A) : Py A :=
  match v with
  | Some a => mret a
  | None =>
      raise (UnboundLocalError
        ("cannot access local variable '" +:+ name +:+ "' where it is not associated with a value"))
  end.

(** [for a in l: ...] with the variables the body assigns as state. *)
Fixpoint for_each {A S} (l : list A) (body : A → S → Py S) (s : S) : Py S :=
  match l with
  | [] => mret s
  | a :: l' => s' ← body a s; for_each l' body s'
  end.

(** The library reports the failure it was told to report, if any. *)
Definition fault (op : JitOp) : Py unit :=
  f ← get faults;
  match f op with
  | Some e => raise e
  | None => mret tt
  end.

(** [f(x, y)] for a module or a loaded graph. *)
Definition forward (f : Callable) (x y : Tensor) : Py Tensor :=
  call (CForward f x y);;
  match f with
  | Eager TritonAddModule => pytorch_add x y
  | Jit (mkScript AtenAdd) => torch_add x y
  end.

(** [model.eval()] *)
Definition module_eval (m : Module) : Py unit := call (CEval m).

(** [torch.jit.trace(model, (example_x, example_y))]: the module is run
    once on the examples and the operations it performs are recorded. *)
Definition torch_jit_trace (m : Module) (example_x example_y : Tensor) : Py ScriptModule :=
  call (CJitTrace m example_x example_y);;
  fault JitTrace;;
  forward (Eager m) example_x example_y;;
  mret (mkScript AtenAdd).

(** [torch.jit.script(model)] *)
Definition torch_jit_script (m : Module) : Py ScriptModule :=
  call (CJitScript m);;
  fault JitScript;;
  mret (mkScript AtenAdd).

(** [scripted_model.save(path)] *)
Definition script_save (sm : ScriptModule) (path : string) : Py unit :=
  call (CSave sm path);;
  fault JitSave;;
  modify (write_file path (graph sm)).

(** [torch.jit.load(path)] *)
Definition torch_jit_load (path : string) : Py ScriptModule :=
  call (CLoad path);;
  fault JitLoad;;
  fs ← get files;
  match fs !! path with
  | Some g => mret (mkScript g)
  | None => raise (RuntimeError ("open file failed because of errno 2 on fopen: " +:+ path))
  end.

(** [traceback.print_exc()] *)
Definition traceback_print_exc (e : Exn) : Py unit := call (CPrintExc e).

(* --------------------------------------------------------------------- *)
(*  pgl/ops/export.py                                                    *)
(* --------------------------------------------------------------------- *)

(** pgl/ops/export.py, [setup_logging]. *)
Definition export_setup_logging : Py unit := call (CBasicConfig INFO).

(** pgl/ops/export.py, [export_torchscript_model]. *)
Definition export_torchscript_model (output_path : string) (use_trace : bool)
    : Py ScriptModule :=
  export_setup_logging;;
  logging INFO "开始导出TorchScript模型...";;
  let model := TritonAddModule in
  module_eval model;;
  try_except
    (scripted_model ←
       (if use_trace then
          logging INFO "使用trace模式导出...";;
          example_x ← torch_randn 1000 Float32 Cpu;
          example_y ← torch_randn 1000 Float32 Cpu;
          traced_model ← torch_jit_trace model example_x example_y;
          mret traced_model
        else
          logging INFO "使用script模式导出...";;
          torch_jit_script model);
     logging INFO ("保存模型到: " +:+ output_path);;
     script_save scripted_model output_path;;
     logging INFO "验证模型...";;
     loaded_model ← torch_jit_load output_path;
     test_x ← torch_randn 100 Float32 Cpu;
     test_y ← torch_randn 100 Float32 Cpu;
     original_result ← forward (Eager model) test_x test_y;
     loaded_result ← forward (Jit loaded_model) test_x test_y;
     ok ← torch_allclose original_result loaded_result atol_1e_6;
     (if ok : bool
      then logging INFO "✓ 模型验证成功！"
      else logging WARNING "✗ 模型验证失败 - 结果不一致");;
     logging INFO "✓ TorchScript模型导出完成";;
     mret scripted_model)
    (λ e, logging ERROR ("模型导出失败: " +:+ str e);;
          traceback_print_exc e;;
          raise e).

(** The body of [for i, (x, y) in enumerate(test_cases)] of
    [test_exported_model]; the state is what the function has returned
    from inside the loop, if it has. *)
Definition test_case (model : ScriptModule) (ixy : nat * (Tensor * Tensor))
    (returned : option bool) : Py (option bool) :=
  let '(i, (x, y)) := ixy in
  match returned with
  | Some _ => mret returned
  | None =>
      logging INFO ("测试用例 " +:+ pretty (i + 1) +:+ "...");;
      result ← forward (Jit model) x y;
      expected ← torch_add x y;
      ok ← torch_allclose result expected atol_1e_6;
      if ok : bool then
        logging INFO ("✓ 测试用例 " +:+ pretty (i + 1) +:+ " 通过");;
        mret None
      else
        logging ERROR ("✗ 测试用例 " +:+ pretty (i + 1) +:+ " 失败");;
        mret (Some false)
  end.

(** pgl/ops/export.py, [test_exported_model]. *)
Definition test_exported_model (model_path : string) : Py bool :=
  export_setup_logging;;
  try_except
    (logging INFO ("加载模型: " +:+ model_path);;
     model ← torch_jit_load model_path;
     x0 ← torch_randn 100 Float32 Cpu;
     y0 ← torch_randn 100 Float32 Cpu;
     x1 ← torch_zeros 50 Float32 Cpu;
     y1 ← torch_ones 50 Float32 Cpu;
     x2 ← torch_full 200 (1 # 2) Float32 Cpu;
     y2 ← torch_full 200 (- 1 # 2) Float32 Cpu;
     let test_cases := [(x0, y0); (x1, y1); (x2, y2)] in
     returned ← for_each (imap (λ i xy, (i, xy)) test_cases) (test_case model) None;
     match returned with
     | Some b => mret b
     | None =>
         logging INFO "✓ 所有测试用例通过";;
         mret true
     end)
    (λ e, logging ERROR ("模型测试失败: " +:+ str e);;
          mret false).

(* --------------------------------------------------------------------- *)
(*  pgl/ops/test.py                                                      *)
(* --------------------------------------------------------------------- *)

(** pgl/ops/test.py, [setup_logging]. *)
Definition test_setup_logging : Py unit :=
  call (CBasicConfig INFO);;
  call (CSetLevel "triton" WARNING).

(** The dictionary [results] of [benchmark_add_operations]. *)
Record Results := mkResults {
  sizes : list nat;
  triton_times : list flt;
  pytorch_times : list flt;
  speedup_ratios : list flt;
  accuracy_checks : list bool
}.

(** The timing loop of one executor: [num_runs] timed calls between two
    barriers each; the variable holding the last result keeps its value
    when the loop does not run. *)
Definition timed_runs (num_runs : nat) (executor : Py Tensor) (last : option Tensor)
    : Py (list flt * option Tensor) :=
  for_each (seq 0 num_runs)
    (λ _ '(times, _),
       torch_cuda_synchronize;;
       start_time ← time_perf_counter;
       result ← executor;
       torch_cuda_synchronize;;
       end_time ← time_perf_counter;
       mret (times ++ [fsub end_time start_time], Some result))
    ([], last).

(** The body of [for size in sizes] of [benchmark_add_operations]; the
    state is [results] with the variables [triton_result] and
    [pytorch_result]. *)
Definition benchmark_size (num_runs : nat) (size : nat)
    (st : Results * option Tensor * option Tensor)
    : Py (Results * option Tensor * option Tensor) :=
  let '(results, triton_result, pytorch_result) := st in
  logging INFO ("测试大小: " +:+ pretty size);;
  x ← torch_randn size Float32 Cuda;
  y ← torch_randn size Float32 Cuda;
  for_each (seq 0 3) (λ _ _, triton_add x y;; pytorch_add x y;; mret tt) tt;;
  torch_cuda_synchronize;;
  '(triton_times_, triton_result) ← timed_runs num_runs (triton_add x y) triton_result;
  '(pytorch_times_, pytorch_result) ← timed_runs num_runs (pytorch_add x y) pytorch_result;
  let avg_triton_time := fmul (np_mean triton_times_) (flt_of_nat 1000) in
  let avg_pytorch_time := fmul (np_mean pytorch_times_) (flt_of_nat 1000) in
  let speedup :=
    if flt_pos avg_triton_time then fdiv avg_pytorch_time avg_triton_time
    else flt_of_nat 0 in
  '(accuracy_check, max_diff) ←
    try_except
      (a ← local "triton_result" triton_result;
       b ← local "pytorch_result" pytorch_result;
       accuracy_check ← torch_allclose a b atol_1e_6;
       max_diff ← torch_max_abs_diff a b;
       mret (accuracy_check, max_diff))
      (λ _, mret (false, flt_inf));
  let results :=
    mkResults (sizes results)
      (triton_times results ++ [avg_triton_time])
      (pytorch_times results ++ [avg_pytorch_time])
      (speedup_ratios results ++ [speedup])
      (accuracy_checks results ++ [accuracy_check]) in
  logging INFO ("  Triton时间: " +:+ format_float ".3f" avg_triton_time +:+ "ms");;
  logging INFO ("  PyTorch时间: " +:+ format_float ".3f" avg_pytorch_time +:+ "ms");;
  logging INFO ("  加速比: " +:+ format_float ".2f" speedup +:+ "x");;
  logging INFO ("  准确性检查: " +:+ (if accuracy_check : bool then "通过" else "失败"));;
  logging INFO ("  最大差异: " +:+ format_float ".2e" max_diff);;
  mret (results, triton_result, pytorch_result).

(** pgl/ops/test.py, [benchmark_add_operations]. *)
Definition benchmark_add_operations (sizes : option (list nat)) (num_runs : nat)
    : Py Results :=
  let sizes := default [1000; 10000; 100000; 1000000] sizes in
  let results := mkResults sizes [] [] [] [] in
  test_setup_logging;;
  avail ← torch_cuda_is_available;
  if negb avail then
    logging WARNING "CUDA不可用，跳过GPU测试";;
    mret results
  else
    logging INFO ("开始性能基准测试，测试大小: " +:+ str_list sizes);;
    '(results, _, _) ← for_each sizes (benchmark_size num_runs) (results, None, None);
    mret results.

(** The body of [for i, x in enumerate(test_cases)] of
    [validate_correctness]; the state is [all_passed]. *)
Definition validate_case (size : nat) (ix : nat * Tensor) (all_passed : bool) : Py bool :=
  let '(i, x) := ix in
  y ← torch_randn size Float32 Cuda;
  try_except
    (triton_result ← triton_add x y;
     pytorch_result ← pytorch_add x y;
     expected ← torch_add x y;
     triton_match ← torch_allclose triton_result pytorch_result atol_1e_6;
     expected_match ← torch_allclose triton_result expected atol_1e_6;
     if negb (triton_match && expected_match) then
       logging ERROR ("验证失败 - 大小: " +:+ pretty size +:+ ", 测试用例: " +:+ pretty i);;
       mret false
     else
       logging DEBUG ("验证通过 - 大小: " +:+ pretty size +:+ ", 测试用例: " +:+ pretty i);;
       mret all_passed)
    (λ e, logging ERROR ("验证出错 - 大小: " +:+ pretty size +:+ ", 测试用例: " +:+ pretty i
                         +:+ ", 错误: " +:+ str e);;
          mret false).

(** The body of [for size in test_sizes] of [validate_correctness]. *)
Definition validate_size (size : nat) (all_passed : bool) : Py bool :=
  logging INFO ("验证大小 " +:+ pretty size +:+ " 的张量...");;
  t0 ← torch_randn size Float32 Cuda;
  t1 ← torch_zeros size Float32 Cuda;
  t2 ← torch_ones size Float32 Cuda;
  t3 ← torch_full size (1 # 2) Float32 Cuda;
  let test_cases := [t0; t1; t2; t3] in
  for_each (imap (λ i x, (i, x)) test_cases) (validate_case size) all_passed.

(** pgl/ops/test.py, [validate_correctness]. *)
Definition validate_correctness (test_sizes : option (list nat)) : Py bool :=
  let test_sizes := default [100; 1000; 10000] test_sizes in
  test_setup_logging;;
  avail ← torch_cuda_is_available;
  if negb avail then
    logging WARNING "CUDA不可用，跳过GPU验证";;
    mret false
  else
    let all_passed := true in
    for_each test_sizes validate_size all_passed.

(* --------------------------------------------------------------------- *)
(*  Specification functions for the kernel                               *)
(* --------------------------------------------------------------------- *)

(** What a masked load of [buf] delivers in the lane of offset [o]. *)
Definition loaded (d : DType) (n : nat) (buf : list elt) (o : nat) : elt :=
  if bool_decide (o < n) then default (zero d) (buf !! o) else zero d.

(** The buffer after the lanes [offs] have stored [f o] under the mask
    [o < n]. *)
Definition write_all (f : nat → elt) (n : nat) (offs : list nat) (buf : list elt)
    : list elt :=
  foldl (λ acc o, if bool_decide (o < n) then <[o := f o]> acc else acc) buf offs.

(** The value lane [o] of the add kernel computes from the input buffers
    [xs] and [ys] and stores through a pointer to type [dz]. *)
Definition lane_sum (dx dy dz : DType) (n : nat) (xs ys : list elt) (o : nat) : elt :=
  let d := tl_promote dx dy in
  cast d dz (eadd d (cast dx d (loaded dx n xs o)) (cast dy d (loaded dy n ys o))).

(** The offsets of block [pid]. *)
Definition block_offsets (B pid : nat) : list nat :=
  (λ k, pid * B + k) <$> tl_arange 0 B.

(** Offset [i] lies in the block of one of the programs [pids]. *)
Definition covered (B : nat) (pids : list nat) (i : nat) : Prop :=
  Exists (λ pid, pid * B ≤ i < pid * B + B) pids.

#[local] Instance covered_dec (B : nat) (pids : list nat) (i : nat) :
  Decision (covered B pids i).
Proof. unfold covered. apply _. Defined.

(** An access of the add kernel is in bounds: a load reads one of the
    two inputs, a store writes the output, both below [n]. *)
Definition in_bounds (bx by_ bo n : nat) (a : Access) : Prop :=
  match a with
  | Load b o => (b = bx ∨ b = by_) ∧ o < n
  | Store b o => b = bo ∧ o < n
  end.

(** The condition under which the dispatcher tries the kernel. *)
Definition eligible (w : World) (x y : Tensor) (use_triton : bool) : bool :=
  use_triton && is_cuda x && is_cuda y && cuda_available w.

(** The record the dispatcher logs when the kernel attempt raised [e]. *)
Definition fallback_warning (e : Exn) : LogRecord :=
  mkLog WARNING ("Triton加法失败，回退到PyTorch: " +:+ str e).

(** The serialization step [export_torchscript_model] takes for a value
    of [use_trace], and the record it logs before it. *)
Definition mode_op (use_trace : bool) : JitOp :=
  if use_trace then JitTrace else JitScript.

Definition mode_message (use_trace : bool) : string :=
  if use_trace then "使用trace模式导出..." else "使用script模式导出...".

(** From [w] to [w']: the accelerator and the planned failures are the
    same, the artifacts have become [fs], the calls [cs] and the records
    [ls] were appended. *)
Definition evolves (w w' : World) (fs : gmap string Graph) (cs : list Call)
    (ls : list LogRecord) : Prop :=
  cuda_available w' = cuda_available w ∧ faults w' = faults w ∧ files w' = fs
  ∧ calls w' = calls w ++ cs ∧ log w' = log w ++ ls.

(** From [w] to [w']: the accelerator, the planned failures and the
    artifacts are the same, and every buffer of [w] is in [w'] with the
    cells it had. *)
Definition grows (w w' : World) : Prop :=
  cuda_available w' = cuda_available w ∧ faults w' = faults w ∧ files w' = files w
  ∧ ∀ p buf, memory w !! p = Some buf → memory w' !! p = Some buf.

(** [m] returns from [w] without raising, in a world grown from [w],
    with a value and a world that satisfy [Q]. *)
Definition safe {A} (m : Py A) (w : World) (Q : A → World → Prop) : Prop :=
  ∃ a w', m w = (Ok a, w') ∧ grows w w' ∧ Q a w'.


(** A tensor of one dimension on device [dev] whose buffer holds [buf]. *)
Definition holds (w : World) (t : Tensor) (n : nat) (d : DType) (dev : Device)
    (buf : list elt) : Prop :=
  shape t = [n] ∧ dtype t = d ∧ device t = dev ∧ data w t = Some buf ∧ length buf = n.





(** What [torch.jit.load] raises on [path] in [w], if it raises. *)
Definition load_error (w : World) (path : string) : option Exn :=
  match faults w JitLoad with
  | Some e => Some e
  | None =>
      match files w !! path with
      | Some _ => None
      | None => Some (RuntimeError ("open file failed because of errno 2 on fopen: " +:+ path))
      end
  end.

(* ===================================================================== *)
(*  Theorems                                                             *)
(* ===================================================================== *)

(** Propositional automation looks at the whole context: the collaborators
    that the goal does not mention are put aside first. *)
Ltac forget_collaborators :=
  try clear format_float; try clear max_abs_diff; try clear flt_pos; try clear flt_inf;
  try clear flt_of_nat; try clear np_mean; try clear fsub fmul fdiv;
  try clear perf_counter_reading; try clear flt; try clear allclose;
  try clear randn_sample.

Lemma cdiv_covers (n B : nat) : 0 < B → n ≤ cdiv n B * B.
Proof.
  intros HB. unfold cdiv.
  pose proof (Nat.div_mod_eq (n + B - 1) B) as E.
  pose proof (Nat.mod_upper_bound (n + B - 1) B) as U.
  nia.
Qed.

Lemma cdiv_tight (n B : nat) : 0 < B → 0 < n → (cdiv n B - 1) * B < n.
Proof.
  intros HB Hn. unfold cdiv.
  pose proof (Nat.div_mod_eq (n + B - 1) B) as E.
  pose proof (Nat.mod_upper_bound (n + B - 1) B) as U.
  nia.
Qed.

Lemma elem_of_block_offsets (B pid i : nat) :
  i ∈ block_offsets B pid ↔ pid * B ≤ i < pid * B + B.
Proof.
  unfold block_offsets, tl_arange. rewrite list_elem_of_fmap. split.
  - intros (k & -> & Hk). apply elem_of_seq in Hk. lia.
  - intros H. exists (i - pid * B). split; [lia|]. apply elem_of_seq. lia.
Qed.

Lemma load_lanes_fmap (m : gmap nat (list elt)) (b : nat) d (buf : list elt) (n : nat) other
    (offs : list nat) :
  m !! b = Some buf → n ≤ length buf →
  load_lanes m (ptr_add (mkPtr b d 0) offs) ((λ o, bool_decide (o < n)) <$> offs) other
  = Some ((λ o, if bool_decide (o < n) then default other (buf !! o) else other) <$> offs).
Proof.
  intros Hb Hn. induction offs as [|o offs IH]; [done|].
  cbn [ptr_add fmap list_fmap load_lanes] in *.
  unfold ptr_add in IH. rewrite IH. unfold load_lane. cbn.
  case_bool_decide as Ho; [|done].
  rewrite Hb. cbn. destruct (lookup_lt_is_Some_2 buf o) as [v ->]; [lia|done].
Qed.

Lemma touched_fmap kind (b : nat) d (n : nat) (offs : list nat) :
  touched kind (ptr_add (mkPtr b d 0) offs) ((λ o, bool_decide (o < n)) <$> offs)
  = kind b <$> filter (λ o, o < n) offs.
Proof.
  induction offs as [|o offs IH]; [done|].
  cbn [ptr_add fmap list_fmap touched] in *. unfold ptr_add in IH. rewrite IH.
  rewrite filter_cons. cbn. case_bool_decide; case_decide; done || lia.
Qed.

Lemma length_write_all f (n : nat) (offs : list nat) (buf : list elt) : length (write_all f n offs buf) = length buf.
Proof.
  unfold write_all. revert buf. induction offs as [|o offs IH]; intros buf; [done|].
  cbn. rewrite IH. case_bool_decide; [apply length_insert|done].
Qed.

Lemma lookup_write_all f (n : nat) (offs : list nat) (buf : list elt) (i : nat) :
  n ≤ length buf →
  write_all f n offs buf !! i
  = if decide (i ∈ offs ∧ i < n) then Some (f i) else buf !! i.
Proof.
  unfold write_all. revert buf. induction offs as [|o offs IH]; intros buf Hn.
  - cbn. case_decide as H; [|done]. destruct H as [H _]. by apply elem_of_nil in H.
  - cbn [foldl]. rewrite IH; last first.
    { case_bool_decide; [rewrite length_insert|]; done. }
    destruct (decide (i ∈ offs ∧ i < n)) as [[Hin Hi]|Hnot].
    + rewrite decide_True; [done|]. split; [by right|done].
    + destruct (decide (i = o ∧ o < n)) as [[-> Ho]|Hne].
      * rewrite bool_decide_true by done. rewrite list_lookup_insert_eq by lia.
        rewrite decide_True; [done|]. split; [by left|done].
      * rewrite decide_False.
        { case_bool_decide as Hlt; [|done]. apply list_lookup_insert_ne.
          intros Heq. apply Hne. by split. }
        intros [Hin Hi]. apply elem_of_cons in Hin as [Heq|Hin]; [|by apply Hnot].
        apply Hne. by rewrite <-Heq.
Qed.

Lemma store_lanes_fmap (m : gmap nat (list elt)) (b : nat) d (buf : list elt) (n : nat) f
    (offs : list nat) :
  m !! b = Some buf → n ≤ length buf →
  store_lanes m (ptr_add (mkPtr b d 0) offs) (f <$> offs)
    ((λ o, bool_decide (o < n)) <$> offs)
  = Some (<[b := write_all f n offs buf]> m).
Proof.
  unfold write_all. revert m buf. induction offs as [|o offs IH]; intros m buf Hb Hn.
  - cbn. by rewrite insert_id.
  - cbn [ptr_add fmap list_fmap store_lanes foldl] in *. unfold ptr_add in IH.
    unfold store_lane. cbn. case_bool_decide as Ho.
    + rewrite Hb. cbn. rewrite decide_True by lia. cbn.
      rewrite (IH _ (<[o := f o]> buf)).
      * by rewrite insert_insert_eq.
      * apply lookup_insert_eq.
      * by rewrite length_insert.
    + cbn. by apply IH.
Qed.

Lemma Forall_in_bounds_fmap_Load (b bx by_ bo n : nat) (offs : list nat) :
  b = bx ∨ b = by_ →
  Forall (in_bounds bx by_ bo n) (Load b <$> filter (λ o, o < n) offs).
Proof.
  intros Hb. apply Forall_fmap, Forall_forall. intros o Ho.
  apply list_elem_of_filter in Ho as [Ho _]. by split.
Qed.

Lemma Forall_in_bounds_fmap_Store (bx by_ bo n : nat) (offs : list nat) :
  Forall (in_bounds bx by_ bo n) (Store bo <$> filter (λ o, o < n) offs).
Proof.
  apply Forall_fmap, Forall_forall. intros o Ho.
  apply list_elem_of_filter in Ho as [Ho _]. by split.
Qed.

Lemma covered_seq (B g i : nat) : covered B (seq 0 g) i ↔ i < g * B.
Proof.
  unfold covered. rewrite Exists_exists. split.
  - intros (pid & Hin & Hi). apply elem_of_seq in Hin. nia.
  - intros Hi. assert (0 < B) as HB by (destruct B; lia).
    exists (i / B). pose proof (Nat.div_mod_eq i B) as E.
    pose proof (Nat.mod_upper_bound i B ltac:(lia)) as U.
    split; [|lia]. apply elem_of_seq. split; [lia|].
    apply Nat.Div0.div_lt_upper_bound. lia.
Qed.

Lemma covered_perm (B : nat) (l1 l2 : list nat) (i : nat) :
  l1 ≡ₚ l2 → covered B l1 i ↔ covered B l2 i.
Proof.
  intros Hp. unfold covered. rewrite !Exists_exists.
  split; intros (pid & Hin & Hi); exists pid; split; try done.
  - by rewrite <-Hp.
  - by rewrite Hp.
Qed.

Section Kernel.

(** Three buffers: the inputs [xs] at [bx] and [ys] at [by_], and an
    output at [bo] that aliases neither; each holds at least [n] cells. *)
Variables (bx by_ bo : nat) (dx dy dz : DType) (n B : nat).
Variables (xs ys : list elt).
Hypothesis out_not_x : bo ≠ bx.
Hypothesis out_not_y : bo ≠ by_.
Hypothesis xs_long : n ≤ length xs.
Hypothesis ys_long : n ≤ length ys.

Let f := lane_sum dx dy dz n xs ys.
Let prog := add_kernel (mkPtr bx dx 0) (mkPtr by_ dy 0) (mkPtr bo dz 0) n B.

(** One program instance: it rewrites the cells of its own block that
    lie below [n], and makes only in-bounds accesses. *)
Lemma add_kernel_block (pid : nat) (s : DevState) (os : list elt) :
  cells s !! bx = Some xs → cells s !! by_ = Some ys → cells s !! bo = Some os →
  n ≤ length os →
  ∃ tr, prog pid s
        = Some (tt, mkDev (<[bo := write_all f n (block_offsets B pid) os]> (cells s))
                      (trace s ++ tr))
        ∧ Forall (in_bounds bx by_ bo n) tr.
Proof using xs_long ys_long.
  intros Hx Hy Ho Hn.
  exists ((Load bx <$> filter (λ o, o < n) (block_offsets B pid))
          ++ (Load by_ <$> filter (λ o, o < n) (block_offsets B pid))
          ++ (Store bo <$> filter (λ o, o < n) (block_offsets B pid))).
  split.
  - unfold prog, add_kernel. fold (block_offsets B pid).
    unfold mbind, Dev_bind, dbind, tl_load, tl_store. cbn [cells trace p_dtype].
    rewrite (load_lanes_fmap _ _ _ xs) by done. cbn.
    rewrite (load_lanes_fmap _ _ _ ys) by done. cbn.
    rewrite zip_with_fmap_l, zip_with_fmap_r, zip_with_diag, <-list_fmap_compose.
    rewrite (store_lanes_fmap _ _ _ os) by done. cbn.
    rewrite !touched_fmap, <-!app_assoc. done.
  - rewrite !Forall_app. split_and!.
    + apply Forall_in_bounds_fmap_Load. by left.
    + apply Forall_in_bounds_fmap_Load. by right.
    + apply Forall_in_bounds_fmap_Store.
Qed.

Lemma run_grid_app (pr : nat → Dev unit) (l1 l2 : list nat) (s : DevState) :
  run_grid pr (l1 ++ l2) s = run_grid pr l1 s ≫= run_grid pr l2.
Proof.
  revert s. induction l1 as [|pid l1 IH]; intros s; [done|].
  cbn. destruct (pr pid s) as [[[] s']|]; [apply IH|done].
Qed.

(** Program instances run in any order, each any number of times: the
    cells of the blocks that ran hold the lane sums (below [n]), every
    other cell of the output and every other buffer is as before, and
    every access was in bounds. *)
Lemma run_grid_blocks (pids : list nat) (s : DevState) (os : list elt) :
  cells s !! bx = Some xs → cells s !! by_ = Some ys → cells s !! bo = Some os →
  n ≤ length os →
  ∃ os' tr,
    run_grid prog pids s = Some (mkDev (<[bo := os']> (cells s)) (trace s ++ tr))
    ∧ length os' = length os
    ∧ (∀ i, os' !! i = if decide (covered B pids i ∧ i < n) then Some (f i) else os !! i)
    ∧ Forall (in_bounds bx by_ bo n) tr.
Proof using out_not_x out_not_y xs_long ys_long.
  intros Hx Hy Ho Hn. induction pids as [|pid pids IH] using rev_ind.
  - exists os, []. cbn. rewrite insert_id, app_nil_r by done. destruct s.
    split_and!; [done|done| |done].
    intros i. rewrite decide_False; [done|]. intros [Hc _]. by apply Exists_nil in Hc.
  - destruct IH as (os1 & tr1 & Hrun & Hlen & Hlook & Htr).
    rewrite run_grid_app, Hrun. cbn.
    destruct (add_kernel_block pid (mkDev (<[bo := os1]> (cells s)) (trace s ++ tr1)) os1)
      as (tr2 & Hblock & Htr2); cbn.
    { by rewrite lookup_insert_ne. }
    { by rewrite lookup_insert_ne. }
    { apply lookup_insert_eq. }
    { lia. }
    rewrite Hblock. cbn.
    exists (write_all f n (block_offsets B pid) os1), (tr1 ++ tr2).
    rewrite insert_insert_eq, app_assoc. split_and!.
    + done.
    + by rewrite length_write_all.
    + intros i. rewrite lookup_write_all by lia. rewrite Hlook.
      rewrite (decide_ext _ (pid * B ≤ i < pid * B + B ∧ i < n))
        by (by rewrite elem_of_block_offsets).
      rewrite (decide_ext (covered B (pids ++ [pid]) i ∧ i < n)
                 ((covered B pids i ∨ pid * B ≤ i < pid * B + B) ∧ i < n)).
      * forget_collaborators. repeat case_decide; try done; exfalso; intuition lia.
      * forget_collaborators. unfold covered.
        rewrite Exists_app, Exists_cons, Exists_nil. intuition.
    + by apply Forall_app.
Qed.

(** The first [g] program instances in the order of their ids. *)
Lemma run_grid_prefix (g : nat) (s : DevState) (os : list elt) :
  cells s !! bx = Some xs → cells s !! by_ = Some ys → cells s !! bo = Some os →
  n ≤ length os →
  ∃ os' tr,
    run_grid prog (seq 0 g) s = Some (mkDev (<[bo := os']> (cells s)) (trace s ++ tr))
    ∧ length os' = length os
    ∧ (∀ i, os' !! i = if decide (i < g * B ∧ i < n) then Some (f i) else os !! i)
    ∧ Forall (in_bounds bx by_ bo n) tr.
Proof using out_not_x out_not_y xs_long ys_long.
  intros Hx Hy Ho Hn.
  destruct (run_grid_blocks (seq 0 g) s os Hx Hy Ho Hn) as (os' & tr & Hrun & Hlen & Hlook & Htr).
  exists os', tr. split_and!; try done.
  intros i. rewrite Hlook. apply decide_ext. by rewrite covered_seq.
Qed.

(** The blocks may run in any order: every schedule of the grid leaves
    the cells the schedule by increasing id leaves. *)
Lemma run_grid_any_order (pids : list nat) (s : DevState) (os : list elt) :
  pids ≡ₚ seq 0 (cdiv n B) →
  cells s !! bx = Some xs → cells s !! by_ = Some ys → cells s !! bo = Some os →
  n ≤ length os →
  ∃ os' tr1 tr2,
    run_grid prog (seq 0 (cdiv n B)) s
    = Some (mkDev (<[bo := os']> (cells s)) (trace s ++ tr1))
    ∧ run_grid prog pids s = Some (mkDev (<[bo := os']> (cells s)) (trace s ++ tr2))
    ∧ Forall (in_bounds bx by_ bo n) tr2.
Proof using out_not_x out_not_y xs_long ys_long.
  intros Hp Hx Hy Ho Hn.
  destruct (run_grid_blocks (seq 0 (cdiv n B)) s os Hx Hy Ho Hn)
    as (os1 & tr1 & Hrun1 & Hlen1 & Hlook1 & _).
  destruct (run_grid_blocks pids s os Hx Hy Ho Hn)
    as (os2 & tr2 & Hrun2 & Hlen2 & Hlook2 & Htr2).
  exists os1, tr1, tr2. split_and!; try done.
  rewrite Hrun2. do 3 f_equal. apply list_eq. intros i.
  rewrite Hlook1, Hlook2. apply decide_ext. by rewrite (covered_perm _ _ _ _ Hp).
Qed.

(** The whole launch over [cdiv n B] blocks. *)
Lemma run_grid_add_kernel (s : DevState) (os : list elt) :
  0 < B →
  cells s !! bx = Some xs → cells s !! by_ = Some ys → cells s !! bo = Some os →
  n ≤ length os →
  ∃ os' tr,
    run_grid prog (seq 0 (cdiv n B)) s
    = Some (mkDev (<[bo := os']> (cells s)) (trace s ++ tr))
    ∧ length os' = length os
    ∧ (∀ i, i < n → os' !! i = Some (f i))
    ∧ (∀ i, n ≤ i → os' !! i = os !! i)
    ∧ Forall (in_bounds bx by_ bo n) tr.
Proof using out_not_x out_not_y xs_long ys_long.
  intros HB Hx Hy Ho Hn.
  destruct (run_grid_prefix (cdiv n B) s os) as (os' & tr & Hrun & Hlen & Hlook & Htr);
    try done.
  exists os', tr. pose proof (cdiv_covers n B HB).
  split_and!; try done.
  - intros i Hi. rewrite Hlook, decide_True; [done|lia].
  - intros i Hi. rewrite Hlook, decide_False; [done|lia].
Qed.

End Kernel.

Lemma broadcast_rev_same (s : list nat) : broadcast_rev s s = Some s.
Proof.
  induction s as [|m s IH]; [done|]. cbn. rewrite IH. cbn. by rewrite decide_True.
Qed.

Lemma broadcast_shapes_same (s : list nat) : broadcast_shapes s s = Some s.
Proof.
  unfold broadcast_shapes. rewrite broadcast_rev_same. cbn. by rewrite reverse_involutive.
Qed.

Lemma pad_shape_same (s : list nat) : pad_shape (length s) s = s.
Proof. unfold pad_shape. by rewrite Nat.sub_diag. Qed.

Lemma promote_types_same (d : DType) : promote_types d d = d.
Proof. by destruct d. Qed.

Lemma result_type_same (x y : Tensor) : dtype x = dtype y → result_type x y = dtype x.
Proof.
  intros E. unfold result_type, combine_categories. rewrite <-E.
  repeat case_bool_decide; rewrite ?promote_types_same; try done;
    by destruct (dtype x).
Qed.

Lemma same_device_eq (x y : Tensor) : device x = device y → same_device x y = true.
Proof.
  intros E. unfold same_device, common_device. rewrite E.
  destruct (is_cpu_scalar x); rewrite !bool_decide_true by done; done.
Qed.

Lemma common_device_eq (x y : Tensor) : device x = device y → common_device x y = device x.
Proof. intros E. unfold common_device. by destruct (is_cpu_scalar x). Qed.

(** Cutting a buffer of [a * m] cells in [a] slices of [m] cells and
    joining the slices gives the buffer back. *)
Lemma join_slices (m a : nat) (buf : list elt) :
  length buf = a * m →
  mjoin ((λ k, take m (drop (k * m) buf)) <$> seq 0 a) = buf.
Proof.
  revert buf. induction a as [|a IH]; intros buf Hlen.
  - by destruct buf.
  - cbn [seq fmap list_fmap mjoin list_join]. rewrite <-fmap_S_seq, <-list_fmap_compose.
    rewrite (list_fmap_ext _ (λ k, take m (drop (k * m) (drop m buf)))).
    + rewrite IH by (rewrite length_drop; lia). cbn. apply take_drop.
    + intros i k _. cbn. rewrite drop_drop. repeat f_equal; lia.
Qed.

(** Expanding to the size an operand already has changes nothing. *)
Lemma expand_same (s : list nat) (buf : list elt) :
  length buf = foldr Nat.mul 1 s → expand s s buf = buf.
Proof.
  revert buf. induction s as [|a s IH]; intros buf Hlen; [done|].
  cbn [expand]. cbn [foldr] in Hlen.
  rewrite (list_fmap_ext _ (λ k, take (foldr Nat.mul 1 s) (drop (k * foldr Nat.mul 1 s) buf))).
  - by apply join_slices.
  - intros i k Hk. apply lookup_seq in Hk as [-> Hi].
    replace (if decide (a = 1) then 0 else 0 + i) with i
      by (case_decide; lia).
    apply IH. rewrite length_take, length_drop. nia.
Qed.

Lemma fresh_not_live (m : gmap nat (list elt)) : m !! fresh (dom m) = None.
Proof. apply not_elem_of_dom, is_fresh. Qed.

Lemma fresh_neq_live (m : gmap nat (list elt)) (p : nat) (buf : list elt) :
  m !! p = Some buf → fresh (dom m) ≠ p.
Proof. intros Hp E. rewrite <-E, fresh_not_live in Hp. done. Qed.

(** With one element type throughout, a lane below [n] stores the sum of
    the two cells it loaded. *)
Lemma lane_sum_same (d : DType) (n : nat) (xs ys : list elt) (i : nat) (a b : elt) :
  i < n → xs !! i = Some a → ys !! i = Some b →
  lane_sum d d d n xs ys i = eadd d a b.
Proof using cast_same tl_promote_same.
  intros Hi Ha Hb. unfold lane_sum, loaded.
  rewrite tl_promote_same, !cast_same, bool_decide_true, Ha, Hb by done. done.
Qed.

(** A launch of the add kernel over [cdiv n B] blocks on three live
    accelerator tensors of one element type: the output buffer becomes
    the list of sums, nothing else changes. *)
Lemma launch_add_kernel (w : World) (x y out : Tensor) (xs ys os : list elt) (n B : nat) :
  0 < B →
  device x = Cuda → device y = Cuda → device out = Cuda →
  dtype y = dtype x → dtype out = dtype x →
  data w x = Some xs → length xs = n →
  data w y = Some ys → length ys = n →
  data w out = Some os → length os = n →
  data_ptr out ≠ data_ptr x → data_ptr out ≠ data_ptr y →
  launch (cdiv n B) [x; y; out] (add_kernel (as_ptr x) (as_ptr y) (as_ptr out) n B) w
  = (Ok tt, set_memory (<[data_ptr out := zip_with (eadd (dtype x)) xs ys]> (memory w)) w).
Proof using cast_same tl_promote_same.
  intros HB Dx Dy Do Ty To Hx Lx Hy Ly Ho Lo Nx Ny.
  unfold launch, is_cuda. cbn [forallb]. rewrite Dx, Dy, Do.
  rewrite !bool_decide_true by done. cbn.
  unfold as_ptr. rewrite Ty, To.
  destruct (run_grid_add_kernel (data_ptr x) (data_ptr y) (data_ptr out)
              (dtype x) (dtype x) (dtype x) n B xs ys Nx Ny ltac:(lia) ltac:(lia)
              (mkDev (memory w) []) os HB Hx Hy Ho ltac:(lia))
    as (os' & tr & Hrun & Hlen & Hlt & _ & _).
  rewrite Hrun. cbn. do 3 f_equal.
  apply list_eq. intros i. rewrite lookup_zip_with.
  destruct (decide (i < n)) as [Hi|Hi].
  - rewrite Hlt by done.
    destruct (lookup_lt_is_Some_2 xs i) as [a Ha]; [lia|].
    destruct (lookup_lt_is_Some_2 ys i) as [b Hb]; [lia|].
    rewrite Ha, Hb. cbn. f_equal. by apply lane_sum_same.
  - rewrite (lookup_ge_None_2 os') by lia.
    rewrite (lookup_ge_None_2 xs) by lia. done.
Qed.

Lemma length_uninit (w : World) (n : nat) : length (uninit w <$> seq 0 n) = n.
Proof. by rewrite length_fmap, length_seq. Qed.

(** What a valid invocation of [triton_add] evaluates to. *)
Lemma triton_add_run (w : World) (x y : Tensor) (xs ys : list elt) :
  shape x = shape y → dtype x = dtype y → device x = Cuda → device y = Cuda →
  data w x = Some xs → length xs = numel x →
  data w y = Some ys → length ys = numel y →
  let p := fresh (dom (memory w)) in
  triton_add x y w
  = (Ok (mkTensor (shape x) (dtype x) (device x) p),
     set_memory (<[p := zip_with (eadd (dtype x)) xs ys]> (memory w)) w).
Proof using cast_same tl_promote_same.
  intros Sh Ty Dx Dy Hx Lx Hy Ly p.
  assert (numel y = numel x) as Ny by (unfold numel; by rewrite Sh).
  unfold triton_add, mbind, Py_bind, bind, assert, is_cuda, torch_empty_like.
  rewrite !bool_decide_true by done. cbn.
  fold p.
  set (out := mkTensor (shape x) (dtype x) (device x) p).
  set (w1 := set_memory _ w).
  change (numel out) with (numel x).
  cbv zeta.
  assert (data w1 x = Some xs) as Hx1.
  { unfold data, w1. cbn. rewrite lookup_insert_ne; [done|]. by eapply fresh_neq_live. }
  assert (data w1 y = Some ys) as Hy1.
  { unfold data, w1. cbn. rewrite lookup_insert_ne; [done|]. by eapply fresh_neq_live. }
  assert (data w1 out = Some (uninit w <$> seq 0 (numel x))) as Ho1.
  { unfold data, w1. cbn. apply lookup_insert_eq. }
  assert (data_ptr out ≠ data_ptr x) as Nx by (by eapply fresh_neq_live).
  assert (data_ptr out ≠ data_ptr y) as Nyy by (by eapply fresh_neq_live).
  rewrite (launch_add_kernel w1 x y out xs ys _ (numel x) 1024
             ltac:(lia) Dx Dy Dx (eq_sym Ty) eq_refl Hx1 Lx Hy1 ltac:(lia) Ho1
             (length_uninit w _) Nx Nyy).
  unfold w1, set_memory, ret. cbn. by rewrite insert_insert_eq.
Qed.




Lemma triton_add_assert_fails (w : World) (x y : Tensor) :
  shape x ≠ shape y ∨ dtype x ≠ dtype y ∨ device x ≠ Cuda ∨ device y ≠ Cuda →
  ∃ m, triton_add x y w = (Raise (AssertionError m), w).
Proof.
  intros Hbad. unfold triton_add, mbind, Py_bind, bind, assert, is_cuda.
  destruct (decide (shape x = shape y)) as [Sh|Sh];
    [rewrite (bool_decide_true _ Sh)|rewrite (bool_decide_false _ Sh); by eexists].
  destruct (decide (device x = Cuda)) as [Dx|Dx];
    [rewrite (bool_decide_true _ Dx)|rewrite (bool_decide_false _ Dx); by eexists].
  destruct (decide (device y = Cuda)) as [Dy|Dy];
    [rewrite (bool_decide_true _ Dy)|rewrite (bool_decide_false _ Dy); by eexists].
  destruct (decide (dtype x = dtype y)) as [Ty|Ty];
    [|rewrite (bool_decide_false _ Ty); by eexists].
  by destruct Hbad as [?|[?|[?|?]]].
Qed.

(** C4. triton_add raises, at once and leaving the state as it was, when
    the shapes differ, the dtypes differ, or an input is not on the CUDA
    device; when shapes and dtypes match and both inputs are on the
    device, no assertion of the function fails. *)
Theorem triton_add_precondition (w : World) (x y : Tensor) :
  (shape x ≠ shape y ∨ dtype x ≠ dtype y ∨ device x ≠ Cuda ∨ device y ≠ Cuda →
   ∃ m, triton_add x y w = (Raise (AssertionError m), w))
  ∧ (shape x = shape y → dtype x = dtype y → device x = Cuda → device y = Cuda →
     ∀ m, (triton_add x y w).1 ≠ Raise (AssertionError m)).
Proof.
  split; [apply triton_add_assert_fails|].
  intros Sh Ty Dx Dy m.
  unfold triton_add, mbind, Py_bind, bind, assert, is_cuda, torch_empty_like, launch.
  rewrite !bool_decide_true by done. cbn [andb forallb is_cuda device].
  unfold is_cuda. cbn [device]. rewrite !bool_decide_true by done.
  cbn -[run_grid]. destruct (run_grid _ _ _); cbn; congruence.
Qed.





(** The fallback: success and failure are decided by the sizes and the
    devices alone. *)
Lemma pytorch_add_ok (w : World) (x y : Tensor) (s : list nat) :
  broadcast_shapes (shape x) (shape y) = Some s → same_device x y = true →
  ∃ out w',
    pytorch_add x y w = (Ok out, w')
    ∧ shape out = s ∧ dtype out = result_type x y ∧ device out = common_device x y
    ∧ cuda_available w' = cuda_available w ∧ log w' = log w
    ∧ data w' out
      = Some (zip_with (λ a b, eadd (result_type x y)
                                 (cast (dtype x) (result_type x y) a)
                                 (cast (dtype y) (result_type x y) b))
                (expand (pad_shape (length s) (shape x)) s (default [] (data w x)))
                (expand (pad_shape (length s) (shape y)) s (default [] (data w y)))).
Proof.
  intros Hs Hd. unfold pytorch_add, torch_add. rewrite Hs, Hd.
  eexists _, _. split; [done|]. cbn. split_and!; try done.
  unfold data. cbn. apply lookup_insert_eq.
Qed.

Lemma pytorch_add_raises (w : World) (x y : Tensor) :
  broadcast_shapes (shape x) (shape y) = None ∨ same_device x y = false →
  ∃ m, pytorch_add x y w = (Raise (RuntimeError m), w).
Proof.
  intros H. unfold pytorch_add, torch_add.
  destruct (broadcast_shapes (shape x) (shape y)) as [s|]; [|by eexists].
  destruct H as [H|H]; [done|]. rewrite H. by eexists.
Qed.

(** What the fallback returns is decided by the operands and their
    cells; the rest of the state does not matter. *)
Lemma pytorch_add_outcome_ext (w1 w2 : World) (x y : Tensor) :
  data w1 x = data w2 x → data w1 y = data w2 y →
  outcome (pytorch_add x y w1) = outcome (pytorch_add x y w2).
Proof.
  intros Hx Hy. unfold pytorch_add, torch_add.
  destruct (broadcast_shapes (shape x) (shape y)) as [s|]; [|done].
  destruct (same_device x y); [|done].
  cbn. unfold value, data. cbn. rewrite !lookup_insert_eq.
  unfold data in Hx, Hy. by rewrite Hx, Hy.
Qed.

(** C5 (amended). pytorch_add succeeds whenever x and y have identical
    shape and dtype and live on one device, and then returns a new tensor
    of that shape, dtype and device holding the sums; it succeeds exactly
    when the shapes broadcast and the devices agree, so it fails with the
    library's error for every pair whose shapes do not broadcast. *)
Theorem pytorch_add_matching (w : World) (x y : Tensor) :
  (shape x = shape y → dtype x = dtype y → device x = device y →
   ∃ out w',
     pytorch_add x y w = (Ok out, w')
     ∧ shape out = shape x ∧ dtype out = dtype x ∧ device out = device x
     ∧ ∀ xs ys, data w x = Some xs → length xs = numel x →
                data w y = Some ys → length ys = numel y →
                data w' out = Some (zip_with (eadd (dtype x)) xs ys))
  ∧ (is_ok (pytorch_add x y w).1 = true
     ↔ is_Some (broadcast_shapes (shape x) (shape y)) ∧ same_device x y = true)
  ∧ (broadcast_shapes (shape x) (shape y) = None →
     ∃ m, pytorch_add x y w = (Raise (RuntimeError m), w)).
Proof using cast_same.
  split_and!.
  - intros Sh Ty Dv.
    destruct (pytorch_add_ok w x y (shape x)) as (out & w' & Hrun & Hs & Ht & Hd & _ & _ & Hdata).
    { rewrite <-Sh. apply broadcast_shapes_same. }
    { by apply same_device_eq. }
    exists out, w'. rewrite result_type_same in Ht, Hdata by done.
    rewrite common_device_eq in Hd by done.
    split_and!; try done.
    intros xs ys Hx Lx Hy Ly. rewrite Hdata, Hx, Hy, <-Sh, pad_shape_same. cbn.
    rewrite !expand_same by (unfold numel in *; congruence).
    f_equal. rewrite <-Ty. apply zip_with_ext; [|done..].
    intros a b. by rewrite !cast_same.
  - split.
    + intros Hok.
      destruct (broadcast_shapes (shape x) (shape y)) as [s|] eqn:Hs;
        destruct (same_device x y) eqn:Hd; try (split; by eauto);
        exfalso;
        (destruct (pytorch_add_raises w x y) as [m Hm];
         [(by left) || (by right) | rewrite Hm in Hok; done]).
    + intros [[s Hs] Hd].
      destruct (pytorch_add_ok w x y s Hs Hd) as (out & w' & Hrun & _). by rewrite Hrun.
  - intros Hs. apply pytorch_add_raises. by left.
Qed.

Lemma add_unfold (w : World) (x y : Tensor) (use_triton : bool) :
  add x y use_triton w
  = if eligible w x y use_triton
    then try_except (triton_add x y)
           (λ e, logging WARNING ("Triton加法失败，回退到PyTorch: " +:+ str e);;
                 pytorch_add x y) w
    else pytorch_add x y w.
Proof.
  unfold add, eligible, mbind, Py_bind, bind, torch_cuda_is_available, get.
  destruct (use_triton && is_cuda x && is_cuda y); cbn; [|done].
  by destruct (cuda_available w).
Qed.

Lemma pytorch_add_log (w : World) (x y : Tensor) : log (pytorch_add x y w).2 = log w.
Proof.
  unfold pytorch_add, torch_add.
  destruct (broadcast_shapes (shape x) (shape y)); [|done].
  by destruct (same_device x y).
Qed.

(** On valid tensors the kernel executor can only fail in its
    assertions, before it has touched the state. *)
Lemma triton_add_raise_valid (w w' : World) (x y : Tensor) (e : Exn) :
  valid w x → valid w y → triton_add x y w = (Raise e, w') →
  w' = w ∧ ∃ m, e = AssertionError m.
Proof using cast_same tl_promote_same.
  intros (xs & Hx & Lx) (ys & Hy & Ly) Hrun.
  assert (shape x ≠ shape y ∨ dtype x ≠ dtype y ∨ device x ≠ Cuda ∨ device y ≠ Cuda →
          w' = w ∧ ∃ m, e = AssertionError m) as Hfail.
  { intros Hbad. destruct (triton_add_assert_fails w x y Hbad) as [m Hm].
    rewrite Hm in Hrun. injection Hrun as He Hw. rewrite <-He, <-Hw. eauto. }
  destruct (decide (shape x = shape y)) as [Sh|Sh]; [|apply Hfail; by left].
  destruct (decide (dtype x = dtype y)) as [Ty|Ty]; [|apply Hfail; by right; left].
  destruct (decide (device x = Cuda)) as [Dx|Dx]; [|apply Hfail; by do 2 right; left].
  destruct (decide (device y = Cuda)) as [Dy|Dy]; [|apply Hfail; by do 3 right].
  rewrite (triton_add_run w x y xs ys) in Hrun by done. done.
Qed.

(** C3. The dispatcher tries the kernel executor exactly when use_triton
    holds, both inputs are on the accelerator and an accelerator is
    available. A successful attempt is returned as it is; an attempt that
    raises any exception e is followed by one warning and the fallback,
    whose result is returned and (on valid tensors) is what
    pytorch_add(x, y) returns; otherwise the dispatcher is the fallback
    and nothing else. *)
Theorem add_dispatch (w : World) (x y : Tensor) (use_triton : bool) :
  (eligible w x y use_triton = true →
   (∀ out w', triton_add x y w = (Ok out, w') → add x y use_triton w = (Ok out, w'))
   ∧ (∀ e w', triton_add x y w = (Raise e, w') →
        add x y use_triton w = pytorch_add x y (add_log (fallback_warning e) w')
        ∧ log (add x y use_triton w).2 = log w' ++ [fallback_warning e]
        ∧ (valid w x → valid w y →
           outcome (add x y use_triton w) = outcome (pytorch_add x y w))))
  ∧ (eligible w x y use_triton = false →
     add x y use_triton w = pytorch_add x y w).
Proof using cast_same tl_promote_same.
  split; intros He; rewrite add_unfold, He; [|done].
  split.
  - intros out w' Hrun. unfold try_except. by rewrite Hrun.
  - intros e w' Hrun. unfold try_except. rewrite Hrun.
    assert (∀ w0, (logging WARNING ("Triton加法失败，回退到PyTorch: " +:+ str e);;
                   pytorch_add x y) w0
                  = pytorch_add x y (add_log (fallback_warning e) w0)) as Hh by done.
    rewrite Hh. split_and!; [done|by rewrite pytorch_add_log|].
    intros Vx Vy.
    destruct (triton_add_raise_valid w w' x y e Vx Vy Hrun) as [-> _].
    by apply pytorch_add_outcome_ext.
Qed.

(** C10. For two accelerator tensors whose shapes or dtypes differ while
    the shapes broadcast, add(x, y) does not raise: the assertion that
    fails in the kernel executor is caught, a warning is logged, and the
    caller receives the fallback's broadcast and promoted result. *)
Theorem add_hides_precondition_violation (w : World) (x y : Tensor) (s : list nat) :
  device x = Cuda → device y = Cuda → cuda_available w = true →
  shape x ≠ shape y ∨ dtype x ≠ dtype y →
  broadcast_shapes (shape x) (shape y) = Some s →
  ∃ m out w',
    triton_add x y w = (Raise (AssertionError m), w)
    ∧ add x y true w = (Ok out, w')
    ∧ shape out = s ∧ dtype out = result_type x y ∧ device out = Cuda
    ∧ log w' = log w ++ [fallback_warning (AssertionError m)]
    ∧ outcome (add x y true w) = outcome (pytorch_add x y w).
Proof.
  intros Dx Dy Hc Hbad Hs.
  destruct (triton_add_assert_fails w x y) as [m Hm].
  { destruct Hbad; [by left|by right; left]. }
  assert (same_device x y = true) as Hd by (apply same_device_eq; congruence).
  destruct (pytorch_add_ok (add_log (fallback_warning (AssertionError m)) w) x y s Hs Hd)
    as (out & w' & Hrun & Hsh & Hty & Hdev & _ & Hlog & _).
  assert (add x y true w
          = pytorch_add x y (add_log (fallback_warning (AssertionError m)) w)) as Hadd.
  { rewrite add_unfold. unfold eligible, is_cuda. rewrite Dx, Dy, Hc.
    rewrite !bool_decide_true by done. cbn [andb].
    unfold try_except. by rewrite Hm. }
  exists m, out, w'. rewrite Hadd. split_and!; try done.
  - rewrite Hdev. by rewrite common_device_eq; congruence.
  - by apply pytorch_add_outcome_ext.
Qed.

(* --------------------------------------------------------------------- *)
(*  Stepping through a Python computation                                *)
(* --------------------------------------------------------------------- *)

Lemma bind_ok {A B} (m : Py A) (k : A → Py B) (w w1 : World) (a : A) :
  m w = (Ok a, w1) → (m ≫= k) w = k a w1.
Proof. intros H. unfold mbind, Py_bind, bind. by rewrite H. Qed.

Lemma bind_raise {A B} (m : Py A) (k : A → Py B) (w w1 : World) (e : Exn) :
  m w = (Raise e, w1) → (m ≫= k) w = (Raise e, w1).
Proof. intros H. unfold mbind, Py_bind, bind. by rewrite H. Qed.

Lemma try_except_ok {A} (body : Py A) (h : Exn → Py A) (w w1 : World) (a : A) :
  body w = (Ok a, w1) → try_except body h w = (Ok a, w1).
Proof. intros H. unfold try_except. by rewrite H. Qed.

Lemma try_except_raise {A} (body : Py A) (h : Exn → Py A) (w w1 : World) (e : Exn) :
  body w = (Raise e, w1) → try_except body h w = h e w1.
Proof. intros H. unfold try_except. by rewrite H. Qed.

Lemma evolves_refl (w : World) : evolves w w (files w) [] [].
Proof. unfold evolves. by rewrite !app_nil_r. Qed.

Lemma evolves_trans (w w1 w2 : World) (f1 f2 : gmap string Graph)
    (c1 c2 : list Call) (l1 l2 : list LogRecord) :
  evolves w w1 f1 c1 l1 → evolves w1 w2 f2 c2 l2 →
  evolves w w2 f2 (c1 ++ c2) (l1 ++ l2).
Proof.
  intros (Ha & Hb & Hc & Hd & He) (Ha' & Hb' & Hc' & Hd' & He').
  unfold evolves. rewrite Ha', Hb', Hc', Hd', He', Ha, Hb, Hd, He, !app_assoc. done.
Qed.

Lemma logging_run (l : Level) (m : string) (w : World) :
  ∃ w', logging l m w = (Ok tt, w') ∧ evolves w w' (files w) [] [mkLog l m].
Proof. eexists. split; [done|]. unfold evolves. cbn. by rewrite app_nil_r. Qed.

Lemma call_run (c : Call) (w : World) :
  ∃ w', call c w = (Ok tt, w') ∧ evolves w w' (files w) [c] [].
Proof. eexists. split; [done|]. unfold evolves. cbn. by rewrite app_nil_r. Qed.

Lemma fault_none (op : JitOp) (w : World) :
  faults w op = None → fault op w = (Ok tt, w).
Proof. intros H. unfold fault, mbind, Py_bind, bind, get. by rewrite H. Qed.

Lemma fault_some (op : JitOp) (w : World) (e : Exn) :
  faults w op = Some e → fault op w = (Raise e, w).
Proof. intros H. unfold fault, mbind, Py_bind, bind, get. by rewrite H. Qed.

Lemma torch_randn_cpu_run (n : nat) (d : DType) (w : World) :
  ∃ t w', torch_randn n d Cpu w = (Ok t, w')
          ∧ shape t = [n] ∧ dtype t = d ∧ device t = Cpu
          ∧ evolves w w' (files w) [CRandn t] [].
Proof.
  unfold torch_randn, new_tensor, alloc_tensor, mbind, Py_bind, bind, get,
    torch_cuda_is_available, modify, call, mret, Py_ret, ret.
  rewrite bool_decide_false by done. cbn.
  eexists _, _. split; [done|]. cbn. unfold evolves. cbn. by rewrite app_nil_r.
Qed.

Lemma torch_add_same_shape_run (x y : Tensor) (w : World) :
  shape x = shape y → device x = device y →
  ∃ r w', torch_add x y w = (Ok r, w')
          ∧ shape r = shape x ∧ device r = device x
          ∧ evolves w w' (files w) [] [].
Proof.
  intros Sh Dv. unfold torch_add.
  rewrite <-Sh, broadcast_shapes_same, same_device_eq by done.
  eexists _, _. split; [done|]. cbn. split_and!; [done|by apply common_device_eq|].
  unfold evolves. cbn. by rewrite !app_nil_r.
Qed.

Lemma forward_run (f : Callable) (x y : Tensor) (w : World) :
  shape x = shape y → device x = device y →
  ∃ r w', forward f x y w = (Ok r, w')
          ∧ shape r = shape x ∧ device r = device x
          ∧ evolves w w' (files w) [CForward f x y] [].
Proof.
  intros Sh Dv. unfold forward.
  destruct (call_run (CForward f x y) w) as (w1 & H1 & E1).
  rewrite (bind_ok _ _ _ _ _ H1).
  assert (files w = files w1) as Hf by (by destruct E1 as (_ & _ & -> & _)).
  rewrite Hf.
  destruct (torch_add_same_shape_run x y w1 Sh Dv) as (r & w2 & H2 & S2 & D2 & E2).
  exists r, w2. split_and!; try done.
  - by destruct f as [[]|[[]]].
  - pose proof (evolves_trans _ _ _ _ _ _ _ _ _ E1 E2) as E. by rewrite app_nil_r in E.
Qed.

Lemma torch_allclose_run (a b : Tensor) (atol : Q) (w : World) :
  shape a = shape b → device a = device b →
  ∃ ok w', torch_allclose a b atol w = (Ok ok, w')
           ∧ evolves w w' (files w) [CAllclose a b atol ok] [].
Proof.
  intros Sh Dv. unfold torch_allclose.
  rewrite <-Sh, broadcast_shapes_same, same_device_eq by done.
  eexists _, _. split; [done|]. unfold evolves. cbn. by rewrite app_nil_r.
Qed.

Lemma evolves_step (w w1 w2 : World) (f : gmap string Graph)
    (c1 c2 : list Call) (l1 l2 : list LogRecord) :
  evolves w w1 f c1 l1 → evolves w1 w2 (files w1) c2 l2 →
  evolves w w2 f (c1 ++ c2) (l1 ++ l2).
Proof.
  intros E1 E2. pose proof (evolves_trans _ _ _ _ _ _ _ _ _ E1 E2) as E.
  destruct E1 as (_ & _ & Hf & _). by rewrite Hf in E.
Qed.

Lemma evolves_faults (w w' : World) (f : gmap string Graph) (cs : list Call)
    (ls : list LogRecord) (op : JitOp) :
  evolves w w' f cs ls → faults w' op = faults w op.
Proof. by intros (_ & -> & _). Qed.

Lemma torch_jit_script_run (m : Module) (w : World) :
  faults w JitScript = None →
  ∃ w', torch_jit_script m w = (Ok (mkScript AtenAdd), w')
        ∧ evolves w w' (files w) [CJitScript m] [].
Proof.
  intros Hf. unfold torch_jit_script.
  destruct (call_run (CJitScript m) w) as (w1 & R1 & E1). rewrite (bind_ok _ _ _ _ _ R1).
  assert (faults w1 JitScript = None) as Hf1 by (by rewrite (evolves_faults _ _ _ _ _ _ E1)).
  rewrite (bind_ok _ _ _ _ _ (fault_none _ _ Hf1)). by exists w1.
Qed.

Lemma torch_jit_script_fail (m : Module) (w : World) (e : Exn) :
  faults w JitScript = Some e →
  ∃ w', torch_jit_script m w = (Raise e, w') ∧ evolves w w' (files w) [CJitScript m] [].
Proof.
  intros Hf. unfold torch_jit_script.
  destruct (call_run (CJitScript m) w) as (w1 & R1 & E1). rewrite (bind_ok _ _ _ _ _ R1).
  assert (faults w1 JitScript = Some e) as Hf1 by (by rewrite (evolves_faults _ _ _ _ _ _ E1)).
  rewrite (bind_raise _ _ _ _ _ (fault_some _ _ _ Hf1)). by exists w1.
Qed.

Lemma torch_jit_trace_run (m : Module) (x y : Tensor) (w : World) :
  faults w JitTrace = None → shape x = shape y → device x = device y →
  ∃ w', torch_jit_trace m x y w = (Ok (mkScript AtenAdd), w')
        ∧ evolves w w' (files w) [CJitTrace m x y; CForward (Eager m) x y] [].
Proof.
  intros Hf Sh Dv. unfold torch_jit_trace.
  destruct (call_run (CJitTrace m x y) w) as (w1 & R1 & E1). rewrite (bind_ok _ _ _ _ _ R1).
  assert (faults w1 JitTrace = None) as Hf1 by (by rewrite (evolves_faults _ _ _ _ _ _ E1)).
  rewrite (bind_ok _ _ _ _ _ (fault_none _ _ Hf1)).
  destruct (forward_run (Eager m) x y w1 Sh Dv) as (r & w2 & R2 & _ & _ & E2).
  rewrite (bind_ok _ _ _ _ _ R2). exists w2. split; [done|].
  apply (evolves_step _ _ _ _ _ _ _ _ E1 E2).
Qed.

Lemma torch_jit_trace_fail (m : Module) (x y : Tensor) (w : World) (e : Exn) :
  faults w JitTrace = Some e →
  ∃ w', torch_jit_trace m x y w = (Raise e, w')
        ∧ evolves w w' (files w) [CJitTrace m x y] [].
Proof.
  intros Hf. unfold torch_jit_trace.
  destruct (call_run (CJitTrace m x y) w) as (w1 & R1 & E1). rewrite (bind_ok _ _ _ _ _ R1).
  assert (faults w1 JitTrace = Some e) as Hf1 by (by rewrite (evolves_faults _ _ _ _ _ _ E1)).
  rewrite (bind_raise _ _ _ _ _ (fault_some _ _ _ Hf1)). by exists w1.
Qed.

Lemma script_save_run (sm : ScriptModule) (path : string) (w : World) :
  faults w JitSave = None →
  ∃ w', script_save sm path w = (Ok tt, w')
        ∧ evolves w w' (<[path := graph sm]> (files w)) [CSave sm path] [].
Proof.
  intros Hf. unfold script_save.
  destruct (call_run (CSave sm path) w) as (w1 & R1 & (Ha & Hb & Hc & Hd & He)).
  rewrite (bind_ok _ _ _ _ _ R1).
  assert (faults w1 JitSave = None) as Hf1 by (by rewrite Hb).
  rewrite (bind_ok _ _ _ _ _ (fault_none _ _ Hf1)).
  eexists. split; [done|]. unfold evolves. cbn. by rewrite Hc.
Qed.

Lemma script_save_fail (sm : ScriptModule) (path : string) (w : World) (e : Exn) :
  faults w JitSave = Some e →
  ∃ w', script_save sm path w = (Raise e, w') ∧ evolves w w' (files w) [CSave sm path] [].
Proof.
  intros Hf. unfold script_save.
  destruct (call_run (CSave sm path) w) as (w1 & R1 & E1). rewrite (bind_ok _ _ _ _ _ R1).
  assert (faults w1 JitSave = Some e) as Hf1 by (by rewrite (evolves_faults _ _ _ _ _ _ E1)).
  rewrite (bind_raise _ _ _ _ _ (fault_some _ _ _ Hf1)). by exists w1.
Qed.

Lemma torch_jit_load_run (path : string) (g : Graph) (w : World) :
  faults w JitLoad = None → files w !! path = Some g →
  ∃ w', torch_jit_load path w = (Ok (mkScript g), w')
        ∧ evolves w w' (files w) [CLoad path] [].
Proof.
  intros Hf Hg. unfold torch_jit_load.
  destruct (call_run (CLoad path) w) as (w1 & R1 & E1). rewrite (bind_ok _ _ _ _ _ R1).
  assert (faults w1 JitLoad = None) as Hf1 by (by rewrite (evolves_faults _ _ _ _ _ _ E1)).
  rewrite (bind_ok _ _ _ _ _ (fault_none _ _ Hf1)).
  exists w1. split; [|done].
  unfold mbind, Py_bind, bind, get. destruct E1 as (_ & _ & -> & _). by rewrite Hg.
Qed.

(** The handler of [export_torchscript_model]: an error record, the
    trace on the standard error, and the exception again. *)
Lemma export_handler_run (e : Exn) (w : World) :
  ∃ w', (logging ERROR ("模型导出失败: " +:+ str e);; traceback_print_exc e;; raise e) w
        = (Raise e, w') :> Res ScriptModule * World
        ∧ evolves w w' (files w) [CPrintExc e] [mkLog ERROR ("模型导出失败: " +:+ str e)].
Proof.
  destruct (logging_run ERROR ("模型导出失败: " +:+ str e) w) as (w1 & R1 & E1).
  rewrite (bind_ok _ _ _ _ _ R1).
  destruct (call_run (CPrintExc e) w1) as (w2 & R2 & E2).
  unfold traceback_print_exc. rewrite (bind_ok _ _ _ _ _ R2).
  exists w2. split; [done|]. apply (evolves_step _ _ _ _ _ _ _ _ E1 E2).
Qed.

(** The first stage of the export: the module is traced on two sampled
    examples, or scripted. *)
Lemma export_capture_run (use_trace : bool) (w : World) :
  faults w (mode_op use_trace) = None →
  ∃ w' pre,
    (if use_trace then
       logging INFO "使用trace模式导出...";;
       example_x ← torch_randn 1000 Float32 Cpu;
       example_y ← torch_randn 1000 Float32 Cpu;
       traced_model ← torch_jit_trace TritonAddModule example_x example_y;
       mret traced_model
     else
       logging INFO "使用script模式导出...";;
       torch_jit_script TritonAddModule) w
    = (Ok (mkScript AtenAdd), w')
    ∧ evolves w w' (files w) pre [mkLog INFO (mode_message use_trace)].
Proof.
  intros Hf. destruct use_trace; cbn [mode_op mode_message] in *.
  - destruct (logging_run INFO "使用trace模式导出..." w) as (w1 & R1 & E1).
    destruct (torch_randn_cpu_run 1000 Float32 w1) as (x & w2 & R2 & Sx & _ & Dx & E2).
    destruct (torch_randn_cpu_run 1000 Float32 w2) as (y & w3 & R3 & Sy & _ & Dy & E3).
    pose proof (evolves_step _ _ _ _ _ _ _ _ (evolves_step _ _ _ _ _ _ _ _ E1 E2) E3) as C3.
    assert (faults w3 JitTrace = None) as Hf3 by (by rewrite (evolves_faults _ _ _ _ _ _ C3)).
    destruct (torch_jit_trace_run TritonAddModule x y w3 Hf3) as (w4 & R4 & E4);
      [congruence|congruence|].
    pose proof (evolves_step _ _ _ _ _ _ _ _ C3 E4) as C4.
    eexists w4, _. split; [|exact C4].
    rewrite (bind_ok _ _ _ _ _ R1), (bind_ok _ _ _ _ _ R2), (bind_ok _ _ _ _ _ R3),
      (bind_ok _ _ _ _ _ R4). done.
  - destruct (logging_run INFO "使用script模式导出..." w) as (w1 & R1 & E1).
    assert (faults w1 JitScript = None) as Hf1 by (by rewrite (evolves_faults _ _ _ _ _ _ E1)).
    destruct (torch_jit_script_run TritonAddModule w1 Hf1) as (w2 & R2 & E2).
    eexists w2, _. split; [|exact (evolves_step _ _ _ _ _ _ _ _ E1 E2)].
    rewrite (bind_ok _ _ _ _ _ R1). done.
Qed.

Lemma export_capture_fail (use_trace : bool) (w : World) (e : Exn) :
  faults w (mode_op use_trace) = Some e →
  ∃ w' pre,
    (if use_trace then
       logging INFO "使用trace模式导出...";;
       example_x ← torch_randn 1000 Float32 Cpu;
       example_y ← torch_randn 1000 Float32 Cpu;
       traced_model ← torch_jit_trace TritonAddModule example_x example_y;
       mret traced_model
     else
       logging INFO "使用script模式导出...";;
       torch_jit_script TritonAddModule) w
    = (Raise e, w')
    ∧ evolves w w' (files w) pre [mkLog INFO (mode_message use_trace)].
Proof.
  intros Hf. destruct use_trace; cbn [mode_op mode_message] in *.
  - destruct (logging_run INFO "使用trace模式导出..." w) as (w1 & R1 & E1).
    destruct (torch_randn_cpu_run 1000 Float32 w1) as (x & w2 & R2 & Sx & _ & Dx & E2).
    destruct (torch_randn_cpu_run 1000 Float32 w2) as (y & w3 & R3 & Sy & _ & Dy & E3).
    pose proof (evolves_step _ _ _ _ _ _ _ _ (evolves_step _ _ _ _ _ _ _ _ E1 E2) E3) as C3.
    assert (faults w3 JitTrace = Some e) as Hf3
      by (by rewrite (evolves_faults _ _ _ _ _ _ C3)).
    destruct (torch_jit_trace_fail TritonAddModule x y w3 e Hf3) as (w4 & R4 & E4).
    pose proof (evolves_step _ _ _ _ _ _ _ _ C3 E4) as C4.
    eexists w4, _. split; [|exact C4].
    rewrite (bind_ok _ _ _ _ _ R1), (bind_ok _ _ _ _ _ R2), (bind_ok _ _ _ _ _ R3),
      (bind_raise _ _ _ _ _ R4). done.
  - destruct (logging_run INFO "使用script模式导出..." w) as (w1 & R1 & E1).
    assert (faults w1 JitScript = Some e) as Hf1
      by (by rewrite (evolves_faults _ _ _ _ _ _ E1)).
    destruct (torch_jit_script_fail TritonAddModule w1 e Hf1) as (w2 & R2 & E2).
    eexists w2, _. split; [|exact (evolves_step _ _ _ _ _ _ _ _ E1 E2)].
    rewrite (bind_ok _ _ _ _ _ R1). done.
Qed.

Lemma verdict_run (ok : bool) (w : World) :
  ∃ w', (if ok then logging INFO "✓ 模型验证成功！"
         else logging WARNING "✗ 模型验证失败 - 结果不一致") w = (Ok tt, w')
        ∧ evolves w w' (files w) []
            [if ok then mkLog INFO "✓ 模型验证成功！"
             else mkLog WARNING "✗ 模型验证失败 - 结果不一致"].
Proof. destruct ok; apply logging_run. Qed.

(** C6. In export_torchscript_model an exception of tracing, scripting or
    saving is logged as an error and raised again to the caller. When
    these and the reload succeed, the saved artifact is reloaded, two test
    inputs of 100 elements are sampled, the original module and the
    reloaded one are called on them and the two results are compared at
    the absolute tolerance 1e-6; whatever the comparison says, the
    function returns the serialized model: a mismatch is a warning in the
    log. *)
Theorem export_verification_is_soft (w : World) (output_path : string) (use_trace : bool) :
  (∀ e, faults w (mode_op use_trace) = Some e
        ∨ (faults w (mode_op use_trace) = None ∧ faults w JitSave = Some e) →
     ∃ w' cs ls,
       export_torchscript_model output_path use_trace w = (Raise e, w')
       ∧ evolves w w' (files w) (cs ++ [CPrintExc e])
           (ls ++ [mkLog ERROR ("模型导出失败: " +:+ str e)]))
  ∧ (faults w (mode_op use_trace) = None → faults w JitSave = None →
     faults w JitLoad = None →
     ∃ sm w' pre tx ty r1 r2 ok,
       export_torchscript_model output_path use_trace w = (Ok sm, w')
       ∧ shape tx = [100] ∧ shape ty = [100]
       ∧ evolves w w' (<[output_path := graph sm]> (files w))
           (pre ++ [CSave sm output_path; CLoad output_path; CRandn tx; CRandn ty;
                    CForward (Eager TritonAddModule) tx ty;
                    CForward (Jit (mkScript (graph sm))) tx ty;
                    CAllclose r1 r2 atol_1e_6 ok])
           [mkLog INFO "开始导出TorchScript模型..."; mkLog INFO (mode_message use_trace);
            mkLog INFO ("保存模型到: " +:+ output_path); mkLog INFO "验证模型...";
            if ok then mkLog INFO "✓ 模型验证成功！"
            else mkLog WARNING "✗ 模型验证失败 - 结果不一致";
            mkLog INFO "✓ TorchScript模型导出完成"]).
Proof.
  destruct (call_run (CBasicConfig INFO) w) as (w1 & R1 & E1).
  destruct (logging_run INFO "开始导出TorchScript模型..." w1) as (w2 & R2 & E2).
  destruct (call_run (CEval TritonAddModule) w2) as (w3 & R3 & E3).
  pose proof (evolves_step _ _ _ _ _ _ _ _ (evolves_step _ _ _ _ _ _ _ _ E1 E2) E3) as C3.
  cbn [app] in C3.
  split.
  - intros e [Hf|[Hf Hs]].
    + assert (faults w3 (mode_op use_trace) = Some e) as Hf3
        by (by rewrite (evolves_faults _ _ _ _ _ _ C3)).
      destruct (export_capture_fail use_trace w3 e Hf3) as (w4 & pre & R4 & E4).
      destruct (export_handler_run e w4) as (w5 & R5 & E5).
      pose proof (evolves_step _ _ _ _ _ _ _ _ (evolves_step _ _ _ _ _ _ _ _ C3 E4) E5) as C5.
      eexists w5, _, _. split; [|exact C5].
      unfold export_torchscript_model, export_setup_logging, module_eval.
      rewrite (bind_ok _ _ _ _ _ R1), (bind_ok _ _ _ _ _ R2), (bind_ok _ _ _ _ _ R3).
      erewrite try_except_raise; [exact R5|].
      by rewrite (bind_raise _ _ _ _ _ R4).
    + assert (faults w3 (mode_op use_trace) = None) as Hf3
        by (by rewrite (evolves_faults _ _ _ _ _ _ C3)).
      destruct (export_capture_run use_trace w3 Hf3) as (w4 & pre & R4 & E4).
      destruct (logging_run INFO ("保存模型到: " +:+ output_path) w4) as (w5 & R5 & E5).
      pose proof (evolves_step _ _ _ _ _ _ _ _ (evolves_step _ _ _ _ _ _ _ _ C3 E4) E5) as C5.
      assert (faults w5 JitSave = Some e) as Hs5
        by (by rewrite (evolves_faults _ _ _ _ _ _ C5)).
      destruct (script_save_fail (mkScript AtenAdd) output_path w5 e Hs5) as (w6 & R6 & E6).
      destruct (export_handler_run e w6) as (w7 & R7 & E7).
      pose proof (evolves_step _ _ _ _ _ _ _ _ (evolves_step _ _ _ _ _ _ _ _ C5 E6) E7) as C7.
      eexists w7, _, _. split; [|exact C7].
      unfold export_torchscript_model, export_setup_logging, module_eval.
      rewrite (bind_ok _ _ _ _ _ R1), (bind_ok _ _ _ _ _ R2), (bind_ok _ _ _ _ _ R3).
      erewrite try_except_raise; [exact R7|].
      rewrite (bind_ok _ _ _ _ _ R4), (bind_ok _ _ _ _ _ R5).
      by rewrite (bind_raise _ _ _ _ _ R6).
  - intros Hf Hs Hl.
    assert (faults w3 (mode_op use_trace) = None) as Hf3
      by (by rewrite (evolves_faults _ _ _ _ _ _ C3)).
    destruct (export_capture_run use_trace w3 Hf3) as (w4 & pre & R4 & E4).
    destruct (logging_run INFO ("保存模型到: " +:+ output_path) w4) as (w5 & R5 & E5).
    pose proof (evolves_step _ _ _ _ _ _ _ _ (evolves_step _ _ _ _ _ _ _ _ C3 E4) E5) as C5.
    assert (faults w5 JitSave = None) as Hs5
      by (by rewrite (evolves_faults _ _ _ _ _ _ C5)).
    destruct (script_save_run (mkScript AtenAdd) output_path w5 Hs5) as (w6 & R6 & E6).
    assert (files w5 = files w) as Hfiles by (by destruct C5 as (_ & _ & -> & _)).
    pose proof (evolves_trans _ _ _ _ _ _ _ _ _ C5 E6) as C6. rewrite Hfiles in C6.
    destruct (logging_run INFO "验证模型..." w6) as (w7 & R7 & E7).
    pose proof (evolves_step _ _ _ _ _ _ _ _ C6 E7) as C7.
    assert (faults w7 JitLoad = None) as Hl7
      by (by rewrite (evolves_faults _ _ _ _ _ _ C7)).
    assert (files w7 !! output_path = Some AtenAdd) as Hg7.
    { destruct C7 as (_ & _ & -> & _). apply lookup_insert_eq. }
    destruct (torch_jit_load_run output_path AtenAdd w7 Hl7 Hg7) as (w8 & R8 & E8).
    destruct (torch_randn_cpu_run 100 Float32 w8) as (tx & w9 & R9 & Sx & _ & Dx & E9).
    destruct (torch_randn_cpu_run 100 Float32 w9) as (ty & w10 & R10 & Sy & _ & Dy & E10).
    destruct (forward_run (Eager TritonAddModule) tx ty w10)
      as (r1 & w11 & R11 & S1 & D1 & E11); [congruence|congruence|].
    destruct (forward_run (Jit (mkScript AtenAdd)) tx ty w11)
      as (r2 & w12 & R12 & S2 & D2 & E12); [congruence|congruence|].
    destruct (torch_allclose_run r1 r2 atol_1e_6 w12)
      as (ok & w13 & R13 & E13); [congruence|congruence|].
    destruct (verdict_run ok w13) as (w14 & R14 & E14).
    destruct (logging_run INFO "✓ TorchScript模型导出完成" w14) as (w15 & R15 & E15).
    pose proof (evolves_step _ _ _ _ _ _ _ _ C7 E8) as C8.
    pose proof (evolves_step _ _ _ _ _ _ _ _ C8 E9) as C9.
    pose proof (evolves_step _ _ _ _ _ _ _ _ C9 E10) as C10.
    pose proof (evolves_step _ _ _ _ _ _ _ _ C10 E11) as C11.
    pose proof (evolves_step _ _ _ _ _ _ _ _ C11 E12) as C12.
    pose proof (evolves_step _ _ _ _ _ _ _ _ C12 E13) as C13.
    pose proof (evolves_step _ _ _ _ _ _ _ _ C13 E14) as C14.
    pose proof (evolves_step _ _ _ _ _ _ _ _ C14 E15) as C15.
    exists (mkScript AtenAdd), w15, ([CBasicConfig INFO; CEval TritonAddModule] ++ pre),
      tx, ty, r1, r2, ok.
    split_and!; [|done|done|].
    + unfold export_torchscript_model, export_setup_logging, module_eval.
      rewrite (bind_ok _ _ _ _ _ R1), (bind_ok _ _ _ _ _ R2), (bind_ok _ _ _ _ _ R3).
      apply try_except_ok.
      rewrite (bind_ok _ _ _ _ _ R4), (bind_ok _ _ _ _ _ R5), (bind_ok _ _ _ _ _ R6),
        (bind_ok _ _ _ _ _ R7), (bind_ok _ _ _ _ _ R8), (bind_ok _ _ _ _ _ R9),
        (bind_ok _ _ _ _ _ R10), (bind_ok _ _ _ _ _ R11), (bind_ok _ _ _ _ _ R12),
        (bind_ok _ _ _ _ _ R13), (bind_ok _ _ _ _ _ R14), (bind_ok _ _ _ _ _ R15).
      done.
    + cbn [graph]. rewrite !app_nil_r, <-!app_assoc in C15. cbn [app] in C15.
      rewrite <-!app_assoc. exact C15.
Qed.

(** C7. Without an accelerator validate_correctness returns false and
    benchmark_add_operations returns the record it started from, whose
    four result lists are empty; neither creates a tensor, reads the
    clock or calls an executor: each only configures logging and logs one
    warning. *)
Theorem no_accelerator_short_circuit (w : World) (test_sizes sizes_arg : option (list nat))
    (num_runs : nat) :
  cuda_available w = false →
  (∃ w', validate_correctness test_sizes w = (Ok false, w')
         ∧ memory w' = memory w ∧ rng w' = rng w ∧ clock w' = clock w
         ∧ evolves w w' (files w) [CBasicConfig INFO; CSetLevel "triton" WARNING]
             [mkLog WARNING "CUDA不可用，跳过GPU验证"])
  ∧ (∃ r w', benchmark_add_operations sizes_arg num_runs w = (Ok r, w')
             ∧ triton_times r = [] ∧ pytorch_times r = []
             ∧ speedup_ratios r = [] ∧ accuracy_checks r = []
             ∧ sizes r = default [1000; 10000; 100000; 1000000] sizes_arg
             ∧ memory w' = memory w ∧ rng w' = rng w ∧ clock w' = clock w
             ∧ evolves w w' (files w) [CBasicConfig INFO; CSetLevel "triton" WARNING]
                 [mkLog WARNING "CUDA不可用，跳过GPU测试"]).
Proof.
  intros Hc. split.
  - unfold validate_correctness, test_setup_logging, mbind, Py_bind, bind, call, modify,
      torch_cuda_is_available, get, logging, mret, Py_ret, ret.
    cbn [add_call add_log cuda_available]. rewrite Hc. cbn [negb].
    eexists. split; [done|]. cbn. split_and!; try done.
    unfold evolves. cbn. by rewrite <-!app_assoc.
  - unfold benchmark_add_operations, test_setup_logging, mbind, Py_bind, bind, call, modify,
      torch_cuda_is_available, get, logging, mret, Py_ret, ret.
    cbn [add_call add_log cuda_available]. rewrite Hc. cbn [negb].
    eexists _, _. split; [reflexivity|].
    unfold add_log, add_call.
    cbn [triton_times pytorch_times speedup_ratios accuracy_checks sizes
         memory rng clock].
    split_and!; try reflexivity.
    unfold evolves, add_log, add_call. cbn [cuda_available faults files calls log].
    rewrite <-!app_assoc. split_and!; reflexivity.
Qed.

(* --------------------------------------------------------------------- *)
(*  Computations that do not raise                                       *)
(* --------------------------------------------------------------------- *)

Lemma grows_refl (w : World) : grows w w.
Proof. by unfold grows. Qed.

Lemma grows_trans (w1 w2 w3 : World) : grows w1 w2 → grows w2 w3 → grows w1 w3.
Proof.
  intros (Ha & Hb & Hc & Hd) (Ha' & Hb' & Hc' & Hd'). unfold grows.
  rewrite Ha', Hb', Hc'. split_and!; try done. intros p buf Hp. by apply Hd', Hd.
Qed.

Lemma grows_cuda (w w' : World) : grows w w' → cuda_available w' = cuda_available w.
Proof. by intros (-> & _). Qed.

Lemma grows_data (w w' : World) (t : Tensor) (buf : list elt) :
  grows w w' → data w t = Some buf → data w' t = Some buf.
Proof. intros (_ & _ & _ & H). apply H. Qed.

Lemma grows_holds (w w' : World) (t : Tensor) (n : nat) (d : DType) (dev : Device)
    (buf : list elt) :
  grows w w' → holds w t n d dev buf → holds w' t n d dev buf.
Proof.
  intros G (H1 & H2 & H3 & H4 & H5). unfold holds.
  split_and!; try done. by eapply grows_data.
Qed.

Lemma grows_set_memory (w : World) (p : nat) (buf : list elt) :
  memory w !! p = None → grows w (set_memory (<[p := buf]> (memory w)) w).
Proof.
  intros Hp. unfold grows. cbn. split_and!; try done.
  intros q b Hq. rewrite lookup_insert_ne; [done|]. intros ->. congruence.
Qed.

Lemma grows_add_log (r : LogRecord) (w : World) : grows w (add_log r w).
Proof. by unfold grows. Qed.

Lemma grows_add_call (c : Call) (w : World) : grows w (add_call c w).
Proof. by unfold grows. Qed.

Lemma safe_ret {A} (a : A) (w : World) (Q : A → World → Prop) :
  Q a w → safe (mret a) w Q.
Proof. intros HQ. exists a, w. split_and!; [done|apply grows_refl|done]. Qed.

Lemma safe_bind {A B} (m : Py A) (k : A → Py B) (w : World)
    (Q1 : A → World → Prop) (Q2 : B → World → Prop) :
  safe m w Q1 →
  (∀ a w1, grows w w1 → Q1 a w1 → safe (k a) w1 Q2) →
  safe (m ≫= k) w Q2.
Proof.
  intros (a & w1 & Hm & G1 & H1) Hk.
  destruct (Hk a w1 G1 H1) as (b & w2 & Hb & G2 & H2).
  exists b, w2. split_and!; [|by eapply grows_trans|done].
  by rewrite (bind_ok _ _ _ _ _ Hm).
Qed.

Lemma safe_weaken {A} (m : Py A) (w : World) (Q1 Q2 : A → World → Prop) :
  safe m w Q1 → (∀ a w', grows w w' → Q1 a w' → Q2 a w') → safe m w Q2.
Proof.
  intros (a & w1 & Hm & G1 & H1) HQ. exists a, w1. split_and!; try done. by apply HQ.
Qed.

(** A loop whose body does not raise and keeps an invariant indexed by
    the number of iterations done. *)
Lemma safe_for_each {A S} (l : list A) (body : A → S → Py S)
    (I : nat → S → World → Prop) (s : S) (w : World) :
  I 0 s w →
  (∀ k a s1 w1, l !! k = Some a → grows w w1 → I k s1 w1 →
                safe (body a s1) w1 (I (Datatypes.S k))) →
  safe (for_each l body s) w (I (length l)).
Proof.
  revert I s w. induction l as [|a l IH]; intros I s w H0 Hbody.
  - by apply safe_ret.
  - cbn [for_each length].
    eapply safe_bind; [apply (Hbody 0 a s w eq_refl (grows_refl w) H0)|].
    intros s1 w1 G1 H1. cbn beta.
    apply (IH (λ k, I (Datatypes.S k)) s1 w1 H1).
    intros k a' s2 w2 Hk G2 H2. apply (Hbody (Datatypes.S k) a' s2 w2 Hk); [|done].
    by eapply grows_trans.
Qed.

Lemma safe_logging (l : Level) (m : string) (w : World) (Q : unit → World → Prop) :
  (∀ w', grows w w' → memory w' = memory w → Q tt w') → safe (logging l m) w Q.
Proof.
  intros HQ. exists tt, (add_log (mkLog l m) w).
  split_and!; [done|apply grows_add_log|]. apply HQ; [apply grows_add_log|done].
Qed.

Lemma safe_call (c : Call) (w : World) (Q : unit → World → Prop) :
  (∀ w', grows w w' → memory w' = memory w → Q tt w') → safe (call c) w Q.
Proof.
  intros HQ. exists tt, (add_call c w).
  split_and!; [done|apply grows_add_call|]. apply HQ; [apply grows_add_call|done].
Qed.


Lemma safe_new_tensor (n : nat) (d : DType) (dev : Device) (buf : nat → elt) (w : World) :
  (dev = Cuda → cuda_available w = true) →
  safe (new_tensor n d dev buf) w (λ t w', holds w' t n d dev (buf <$> seq 0 n)).
Proof.
  intros Hdev.
  assert (bool_decide (dev = Cuda) && negb (cuda_available w) = false) as Hb.
  { case_bool_decide as Hd; [|done]. by rewrite (Hdev Hd). }
  unfold safe, new_tensor, torch_cuda_is_available, get, mbind, Py_bind, bind.
  rewrite Hb. unfold alloc_tensor. eexists _, _. split; [done|].
  split; [apply grows_set_memory, fresh_not_live|].
  unfold holds, data. cbn. rewrite lookup_insert_eq, length_fmap, length_seq. done.
Qed.

Lemma safe_torch_randn (n : nat) (d : DType) (dev : Device) (w : World) :
  (dev = Cuda → cuda_available w = true) →
  safe (torch_randn n d dev) w (λ t w', ∃ buf, holds w' t n d dev buf).
Proof.
  intros Hdev. unfold torch_randn.
  apply (safe_bind _ _ _ (λ _ _, True));
    [exists (rng w), w; split_and!; [done|apply grows_refl|exact I]|].
  intros k w1 G1 _. cbn beta.
  eapply safe_bind.
  { apply safe_new_tensor. intros Hd. rewrite (grows_cuda _ _ G1). by apply Hdev. }
  intros t w2 G2 Ht. cbn beta.
  apply (safe_bind _ _ _ (λ _ w', holds w' t n d dev (randn_sample k <$> seq 0 n))).
  { exists tt, (next_rng w2). split_and!; [done|by unfold grows|].
    exact (grows_holds w2 (next_rng w2) t _ _ _ _ ltac:(by unfold grows) Ht). }
  intros [] w3 G3 Ht3. cbn beta.
  apply (safe_bind _ _ _ (λ _ w', holds w' t n d dev (randn_sample k <$> seq 0 n))).
  { apply safe_call. intros w4 G4 _. exact (grows_holds _ _ _ _ _ _ _ G4 Ht3). }
  intros [] w4 G4 Ht4. apply safe_ret. eauto.
Qed.

Lemma safe_torch_full (n : nat) (v : Q) (d : DType) (dev : Device) (w : World) :
  (dev = Cuda → cuda_available w = true) →
  safe (torch_full n v d dev) w (λ t w', ∃ buf, holds w' t n d dev buf).
Proof.
  intros Hdev. eapply safe_weaken; [by apply safe_new_tensor|]. cbn beta. eauto.
Qed.


(** What [pytorch_add] evaluates to on two tensors of one dimension with
    the same size, element type and device. *)
Lemma safe_pytorch_add (x y : Tensor) (n : nat) (d : DType) (dev : Device)
    (xs ys : list elt) (w : World) :
  holds w x n d dev xs → holds w y n d dev ys →
  safe (pytorch_add x y) w (λ out w', holds w' out n d dev (zip_with (eadd d) xs ys)).
Proof using cast_same.
  intros (Sx & Tx & Dx & Hx & Lx) (Sy & Ty & Dy & Hy & Ly).
  unfold safe, pytorch_add, torch_add.
  rewrite Sx, Sy, broadcast_shapes_same, same_device_eq by congruence.
  eexists _, _. split; [done|].
  split; [apply grows_set_memory, fresh_not_live|].
  unfold holds, data. cbn [shape dtype device data_ptr memory set_memory].
  rewrite lookup_insert_eq, result_type_same, common_device_eq by congruence.
  unfold data in Hx, Hy. rewrite Hx, Hy, Ty, Tx. cbn [default].
  rewrite pad_shape_same, !expand_same by (cbn; lia).
  split_and!; try done.
  - f_equal. apply zip_with_ext; [|done..]. intros a b. by rewrite !cast_same.
  - rewrite length_zip_with. lia.
Qed.

Lemma safe_forward (f : Callable) (x y : Tensor) (n : nat) (d : DType) (dev : Device)
    (xs ys : list elt) (w : World) :
  holds w x n d dev xs → holds w y n d dev ys →
  safe (forward f x y) w (λ out w', holds w' out n d dev (zip_with (eadd d) xs ys)).
Proof using cast_same.
  intros Hx Hy. unfold forward.
  apply (safe_bind _ _ _ (λ _ w', grows w w')); [apply safe_call; intros w1 G1 _; exact G1|].
  intros [] w1 _ G1. cbn beta.
  assert (safe (pytorch_add x y) w1
            (λ out w', holds w' out n d dev (zip_with (eadd d) xs ys))) as Hs.
  { apply safe_pytorch_add; by eapply grows_holds. }
  by destruct f as [[]|[[]]].
Qed.

Lemma safe_torch_allclose (a b : Tensor) (n : nat) (da db : DType) (dev : Device)
    (ca cb : list elt) (atol : Q) (w : World) :
  holds w a n da dev ca → holds w b n db dev cb →
  safe (torch_allclose a b atol) w (λ r w', r = allclose ca cb atol).
Proof.
  intros (Sa & Ta & Da & Ha & La) (Sb & Tb & Db & Hb & Lb).
  unfold safe, torch_allclose.
  rewrite Sa, Sb, broadcast_shapes_same, same_device_eq by congruence.
  unfold mbind, Py_bind, bind, get, call, modify, mret, Py_ret, ret.
  eexists _, _. split; [done|]. split; [apply grows_add_call|].
  rewrite Ha, Hb. cbn [default]. rewrite pad_shape_same.
  rewrite !expand_same by (cbn; lia). done.
Qed.



Lemma safe_try_except {A} (body : Py A) (h : Exn → Py A) (w : World)
    (Q : A → World → Prop) :
  safe body w Q → safe (try_except body h) w Q.
Proof.
  intros (a & w1 & Hb & G & HQ). exists a, w1. split_and!; try done.
  by apply try_except_ok.
Qed.

(* --------------------------------------------------------------------- *)
(*  pgl/ops/test.py with an accelerator                                  *)
(* --------------------------------------------------------------------- *)




















(* --------------------------------------------------------------------- *)
(*  The accesses of a launch                                             *)
(* --------------------------------------------------------------------- *)







Section KernelTrace.

Variables (bx by_ bo : nat) (dx dy dz : DType) (n B : nat).
Variables (xs ys : list elt).
Hypothesis out_not_x : bo ≠ bx.
Hypothesis out_not_y : bo ≠ by_.
Hypothesis xs_long : n ≤ length xs.
Hypothesis ys_long : n ≤ length ys.



End KernelTrace.


(* --------------------------------------------------------------------- *)
(*  The two executors and the dispatcher                                 *)
(* --------------------------------------------------------------------- *)




Lemma pytorch_add_raise_inv (w w' : World) (x y : Tensor) (e : Exn) :
  pytorch_add x y w = (Raise e, w') → w' = w ∧ ∃ m, e = RuntimeError m.
Proof.
  unfold pytorch_add, torch_add.
  destruct (broadcast_shapes (shape x) (shape y));
    [|intros H; injection H as <- <-; eauto].
  destruct (same_device x y); [done|intros H; injection H as <- <-; eauto].
Qed.


(** X5. The dispatcher never lets an assertion of the kernel executor
    reach the caller: an exception that add raises is a runtime error of
    the fallback. *)
Theorem add_raises_only_runtime_errors (w w' : World) (x y : Tensor) (use_triton : bool)
    (e : Exn) :
  add x y use_triton w = (Raise e, w') → ∃ m, e = RuntimeError m.
Proof.
  rewrite add_unfold. destruct (eligible w x y use_triton).
  - unfold try_except. destruct (triton_add x y w) as [[out|e'] w1]; [done|].
    intros H. by destruct (pytorch_add_raise_inv _ _ _ _ _ H) as [_ ?].
  - intros H. by destruct (pytorch_add_raise_inv _ _ _ _ _ H) as [_ ?].
Qed.






(* --------------------------------------------------------------------- *)
(*  Loading and testing the exported model                               *)
(* --------------------------------------------------------------------- *)

Lemma torch_jit_load_fail (path : string) (w : World) (e : Exn) :
  faults w JitLoad = Some e →
  ∃ w', torch_jit_load path w = (Raise e, w') ∧ evolves w w' (files w) [CLoad path] [].
Proof.
  intros Hf. unfold torch_jit_load.
  destruct (call_run (CLoad path) w) as (w1 & R1 & E1). rewrite (bind_ok _ _ _ _ _ R1).
  assert (faults w1 JitLoad = Some e) as Hf1 by (by rewrite (evolves_faults _ _ _ _ _ _ E1)).
  rewrite (bind_raise _ _ _ _ _ (fault_some _ _ _ Hf1)). by exists w1.
Qed.

Lemma torch_jit_load_error (path : string) (w : World) (e : Exn) :
  load_error w path = Some e →
  torch_jit_load path w = (Raise e, add_call (CLoad path) w).
Proof.
  unfold load_error, torch_jit_load, fault, call, modify, get, mbind, Py_bind, bind.
  cbn [faults files add_call].
  destruct (faults w JitLoad) as [e'|]; [by intros [= ->]|].
  unfold raise, mret, Py_ret, ret. cbn [faults files add_call].
  destruct (files w !! path); [done|by intros [= ->]].
Qed.

Lemma safe_torch_jit_load (path : string) (g : Graph) (w : World) :
  faults w JitLoad = None → files w !! path = Some g →
  safe (torch_jit_load path) w (λ m _, m = mkScript g).
Proof.
  intros Hf Hg. exists (mkScript g), (add_call (CLoad path) w).
  split_and!; [|apply grows_add_call|done].
  unfold torch_jit_load, fault, call, modify, get, mbind, Py_bind, bind.
  cbn [faults files add_call]. rewrite Hf.
  unfold mret, Py_ret, ret. cbn [faults files add_call]. by rewrite Hg.
Qed.

(** One test case on two tensors of the same shape, dtype and device:
    the call of the loaded graph and [x + y] hold the same cells. *)
Lemma test_case_safe (model : ScriptModule) (i : nat) (x y : Tensor) (n : nat) (d : DType)
    (dev : Device) (xs ys : list elt) (w : World) :
  (∀ l atol, allclose l l atol = true) →
  holds w x n d dev xs → holds w y n d dev ys →
  safe (test_case model (i, (x, y)) None) w (λ r _, r = None).
Proof using cast_same.
  intros Hrefl Hx Hy. unfold test_case.
  apply (safe_bind _ _ _ (λ _ _, True)); [apply safe_logging; done|].
  intros [] w1 G1 _. cbn beta.
  eapply safe_bind.
  { apply (safe_forward (Jit model) x y n d dev xs ys); by eapply grows_holds. }
  intros r w2 G2 Hr. cbn beta.
  eapply safe_bind.
  { change (torch_add x y) with (pytorch_add x y).
    apply (safe_pytorch_add x y n d dev xs ys); eapply grows_holds; try done;
      by eapply grows_holds. }
  intros ex w3 G3 Hex. cbn beta.
  eapply safe_bind.
  { apply (safe_torch_allclose r ex n d d dev (zip_with (eadd d) xs ys)
             (zip_with (eadd d) xs ys) atol_1e_6); [by eapply grows_holds|done]. }
  intros ok w4 G4 ->. cbn beta. rewrite Hrefl.
  apply (safe_bind _ _ _ (λ _ _, True)); [apply safe_logging; done|].
  intros [] w5 _ _. by apply safe_ret.
Qed.

(** X10. test_exported_model never raises: when the model cannot be
    loaded (the file is missing, or the loader fails) it returns False,
    having logged the attempt and the error; no test input is created. *)
Theorem test_exported_model_load_error (model_path : string) (w : World) (e : Exn) :
  load_error w model_path = Some e →
  ∃ w', test_exported_model model_path w = (Ok false, w')
        ∧ memory w' = memory w ∧ rng w' = rng w
        ∧ evolves w w' (files w) [CBasicConfig INFO; CLoad model_path]
            [mkLog INFO ("加载模型: " +:+ model_path);
             mkLog ERROR ("模型测试失败: " +:+ str e)].
Proof.
  intros He.
  set (w1 := add_call (CBasicConfig INFO) w).
  set (w2 := add_log (mkLog INFO ("加载模型: " +:+ model_path)) w1).
  assert (load_error w2 model_path = Some e) as He2 by done.
  pose proof (torch_jit_load_error model_path w2 e He2) as Hload.
  exists (add_log (mkLog ERROR ("模型测试失败: " +:+ str e)) (add_call (CLoad model_path) w2)).
  split_and!; [|done|done|unfold evolves; cbn; by rewrite <-!app_assoc].
  unfold test_exported_model, export_setup_logging.
  rewrite (bind_ok _ _ w w1 tt) by done.
  erewrite try_except_raise; [done|].
  rewrite (bind_ok _ _ w1 w2 tt) by done.
  by rewrite (bind_raise _ _ _ _ _ Hload).
Qed.

Lemma test_exported_model_safe (model_path : string) (w : World) :
  faults w JitLoad = None → files w !! model_path = Some AtenAdd →
  (∀ l atol, allclose l l atol = true) →
  safe (test_exported_model model_path) w (λ b _, b = true).
Proof using cast_same.
  intros Hf Hg Hrefl. unfold test_exported_model, export_setup_logging.
  apply (safe_bind _ _ _ (λ _ _, True)); [apply safe_call; done|].
  intros [] w1 G1 _. cbn beta.
  apply safe_try_except.
  apply (safe_bind _ _ _ (λ _ _, True)); [apply safe_logging; done|].
  intros [] w2 G2 _. cbn beta.
  pose proof (grows_trans _ _ _ G1 G2) as G02.
  eapply safe_bind.
  { apply (safe_torch_jit_load model_path AtenAdd).
    - destruct G02 as (_ & -> & _). done.
    - destruct G02 as (_ & _ & -> & _). done. }
  intros model w3 G3 ->. cbn beta.
  eapply safe_bind; [by apply safe_torch_randn|].
  intros x0 w4 G4 [c0 Hx0]. cbn beta.
  eapply safe_bind; [by apply safe_torch_randn|].
  intros y0 w5 G5 [d0 Hy0]. cbn beta.
  eapply safe_bind; [by apply safe_torch_full|].
  intros x1 w6 G6 [c1 Hx1]. cbn beta.
  eapply safe_bind; [by apply safe_torch_full|].
  intros y1 w7 G7 [d1 Hy1]. cbn beta.
  eapply safe_bind; [by apply safe_torch_full|].
  intros x2 w8 G8 [c2 Hx2]. cbn beta.
  eapply safe_bind; [by apply safe_torch_full|].
  intros y2 w9 G9 [d2 Hy2]. cbn beta zeta.
  assert (holds w9 x0 100 Float32 Cpu c0) as Kx0 by eauto 10 using grows_holds.
  assert (holds w9 y0 100 Float32 Cpu d0) as Ky0 by eauto 10 using grows_holds.
  assert (holds w9 x1 50 Float32 Cpu c1) as Kx1 by eauto 10 using grows_holds.
  assert (holds w9 y1 50 Float32 Cpu d1) as Ky1 by eauto 10 using grows_holds.
  assert (holds w9 x2 200 Float32 Cpu c2) as Kx2 by eauto 10 using grows_holds.
  eapply safe_bind.
  { apply (safe_for_each _ _ (λ _ r _, r = None)); [done|].
    intros k a r w10 Hk G10 ->.
    destruct k as [|[|[|k]]]; cbn in Hk; try discriminate Hk; injection Hk as <-.
    - apply (test_case_safe _ _ _ _ 100 Float32 Cpu c0 d0); [done| |]; by eapply grows_holds.
    - apply (test_case_safe _ _ _ _ 50 Float32 Cpu c1 d1); [done| |]; by eapply grows_holds.
    - apply (test_case_safe _ _ _ _ 200 Float32 Cpu c2 d2); [done| |]; by eapply grows_holds. }
  intros r w10 _ ->. cbn beta iota.
  apply (safe_bind _ _ _ (λ _ _, True)); [apply safe_logging; done|].
  intros [] w11 _ _. by apply safe_ret.
Qed.

(** X11. When the file holds the graph of the addition and the loader
    does not fail, test_exported_model returns True, provided the
    comparison accepts two equal lists: on each of the three input pairs
    the loaded model and x + y produce the same cells. *)
Theorem test_exported_model_accepts_add_graph (model_path : string) (w : World) :
  faults w JitLoad = None → files w !! model_path = Some AtenAdd →
  (∀ l atol, allclose l l atol = true) →
  ∃ w', test_exported_model model_path w = (Ok true, w') ∧ files w' = files w.
Proof using cast_same.
  intros Hf Hg Hrefl.
  destruct (test_exported_model_safe model_path w Hf Hg Hrefl) as (b & w' & Hrun & G & ->).
  exists w'. split; [done|]. by destruct G as (_ & _ & ? & _).
Qed.

(** The export once the model is captured and saved: a failing reload
    reaches the handler with the artifact on disk; a reload that works
    lets the function return. *)
Lemma export_after_save (w : World) (output_path : string) (use_trace : bool) :
  faults w (mode_op use_trace) = None → faults w JitSave = None →
  (∀ e, faults w JitLoad = Some e →
     ∃ w' cs ls,
       export_torchscript_model output_path use_trace w = (Raise e, w')
       ∧ evolves w w' (<[output_path := AtenAdd]> (files w))
           (cs ++ [CSave (mkScript AtenAdd) output_path; CLoad output_path; CPrintExc e])
           (ls ++ [mkLog INFO "验证模型..."; mkLog ERROR ("模型导出失败: " +:+ str e)]))
  ∧ (faults w JitLoad = None →
     ∃ w' cs ls,
       export_torchscript_model output_path use_trace w = (Ok (mkScript AtenAdd), w')
       ∧ evolves w w' (<[output_path := AtenAdd]> (files w)) cs ls).
Proof.
  intros Hf Hs.
  destruct (call_run (CBasicConfig INFO) w) as (w1 & R1 & E1).
  destruct (logging_run INFO "开始导出TorchScript模型..." w1) as (w2 & R2 & E2).
  destruct (call_run (CEval TritonAddModule) w2) as (w3 & R3 & E3).
  pose proof (evolves_step _ _ _ _ _ _ _ _ (evolves_step _ _ _ _ _ _ _ _ E1 E2) E3) as C3.
  cbn [app] in C3.
  assert (faults w3 (mode_op use_trace) = None) as Hf3
    by (by rewrite (evolves_faults _ _ _ _ _ _ C3)).
  destruct (export_capture_run use_trace w3 Hf3) as (w4 & pre & R4 & E4).
  destruct (logging_run INFO ("保存模型到: " +:+ output_path) w4) as (w5 & R5 & E5).
  pose proof (evolves_step _ _ _ _ _ _ _ _ (evolves_step _ _ _ _ _ _ _ _ C3 E4) E5) as C5.
  assert (faults w5 JitSave = None) as Hs5
    by (by rewrite (evolves_faults _ _ _ _ _ _ C5)).
  destruct (script_save_run (mkScript AtenAdd) output_path w5 Hs5) as (w6 & R6 & E6).
  assert (files w5 = files w) as Hfiles by (by destruct C5 as (_ & _ & -> & _)).
  pose proof (evolves_trans _ _ _ _ _ _ _ _ _ C5 E6) as C6. rewrite Hfiles in C6.
  cbn [graph] in C6.
  destruct (logging_run INFO "验证模型..." w6) as (w7 & R7 & E7).
  pose proof (evolves_step _ _ _ _ _ _ _ _ C6 E7) as C7.
  split.
  - intros e Hl.
    assert (faults w7 JitLoad = Some e) as Hl7
      by (by rewrite (evolves_faults _ _ _ _ _ _ C7)).
    destruct (torch_jit_load_fail output_path w7 e Hl7) as (w8 & R8 & E8).
    destruct (export_handler_run e w8) as (w9 & R9 & E9).
    pose proof (evolves_step _ _ _ _ _ _ _ _ (evolves_step _ _ _ _ _ _ _ _ C7 E8) E9) as C9.
    exists w9, ([CBasicConfig INFO; CEval TritonAddModule] ++ pre),
      [mkLog INFO "开始导出TorchScript模型..."; mkLog INFO (mode_message use_trace);
       mkLog INFO ("保存模型到: " +:+ output_path)].
    split.
    + unfold export_torchscript_model, export_setup_logging, module_eval.
      rewrite (bind_ok _ _ _ _ _ R1), (bind_ok _ _ _ _ _ R2), (bind_ok _ _ _ _ _ R3).
      erewrite try_except_raise; [exact R9|].
      rewrite (bind_ok _ _ _ _ _ R4), (bind_ok _ _ _ _ _ R5), (bind_ok _ _ _ _ _ R6),
        (bind_ok _ _ _ _ _ R7).
      by rewrite (bind_raise _ _ _ _ _ R8).
    + rewrite ?app_nil_r, <-?app_assoc in C9. cbn [app] in C9.
      rewrite <-?app_assoc. exact C9.
  - intros Hl.
    assert (faults w7 JitLoad = None) as Hl7
      by (by rewrite (evolves_faults _ _ _ _ _ _ C7)).
    assert (files w7 !! output_path = Some AtenAdd) as Hg7.
    { destruct C7 as (_ & _ & -> & _). apply lookup_insert_eq. }
    destruct (torch_jit_load_run output_path AtenAdd w7 Hl7 Hg7) as (w8 & R8 & E8).
    destruct (torch_randn_cpu_run 100 Float32 w8) as (tx & w9 & R9 & Sx & _ & Dx & E9).
    destruct (torch_randn_cpu_run 100 Float32 w9) as (ty & w10 & R10 & Sy & _ & Dy & E10).
    destruct (forward_run (Eager TritonAddModule) tx ty w10)
      as (r1 & w11 & R11 & S1 & D1 & E11); [congruence|congruence|].
    destruct (forward_run (Jit (mkScript AtenAdd)) tx ty w11)
      as (r2 & w12 & R12 & S2 & D2 & E12); [congruence|congruence|].
    destruct (torch_allclose_run r1 r2 atol_1e_6 w12)
      as (ok & w13 & R13 & E13); [congruence|congruence|].
    destruct (verdict_run ok w13) as (w14 & R14 & E14).
    destruct (logging_run INFO "✓ TorchScript模型导出完成" w14) as (w15 & R15 & E15).
    pose proof (evolves_step _ _ _ _ _ _ _ _ C7 E8) as C8.
    pose proof (evolves_step _ _ _ _ _ _ _ _ C8 E9) as C9.
    pose proof (evolves_step _ _ _ _ _ _ _ _ C9 E10) as C10.
    pose proof (evolves_step _ _ _ _ _ _ _ _ C10 E11) as C11.
    pose proof (evolves_step _ _ _ _ _ _ _ _ C11 E12) as C12.
    pose proof (evolves_step _ _ _ _ _ _ _ _ C12 E13) as C13.
    pose proof (evolves_step _ _ _ _ _ _ _ _ C13 E14) as C14.
    pose proof (evolves_step _ _ _ _ _ _ _ _ C14 E15) as C15.
    eexists w15, _, _. split; [|exact C15].
    unfold export_torchscript_model, export_setup_logging, module_eval.
    rewrite (bind_ok _ _ _ _ _ R1), (bind_ok _ _ _ _ _ R2), (bind_ok _ _ _ _ _ R3).
    apply try_except_ok.
    rewrite (bind_ok _ _ _ _ _ R4), (bind_ok _ _ _ _ _ R5), (bind_ok _ _ _ _ _ R6),
      (bind_ok _ _ _ _ _ R7), (bind_ok _ _ _ _ _ R8), (bind_ok _ _ _ _ _ R9),
      (bind_ok _ _ _ _ _ R10), (bind_ok _ _ _ _ _ R11), (bind_ok _ _ _ _ _ R12),
      (bind_ok _ _ _ _ _ R13), (bind_ok _ _ _ _ _ R14), (bind_ok _ _ _ _ _ R15).
    done.
Qed.

(** X12. When the model is captured and saved but the reload fails,
    export_torchscript_model logs the error and raises it again; the
    artifact it wrote stays on disk. *)
Theorem export_reload_failure_keeps_artifact (w : World) (output_path : string)
    (use_trace : bool) (e : Exn) :
  faults w (mode_op use_trace) = None → faults w JitSave = None →
  faults w JitLoad = Some e →
  ∃ w' cs ls,
    export_torchscript_model output_path use_trace w = (Raise e, w')
    ∧ files w' = <[output_path := AtenAdd]> (files w)
    ∧ calls w'
      = calls w ++ cs ++ [CSave (mkScript AtenAdd) output_path; CLoad output_path;
                          CPrintExc e]
    ∧ log w'
      = log w ++ ls ++ [mkLog INFO "验证模型..."; mkLog ERROR ("模型导出失败: " +:+ str e)].
Proof.
  intros Hf Hs Hl.
  destruct (export_after_save w output_path use_trace Hf Hs) as [Hfail _].
  destruct (Hfail e Hl) as (w' & cs & ls & Hrun & _ & _ & Hfiles & Hcalls & Hlog).
  by exists w', cs, ls.
Qed.

(** X13. Round trip: when no stage of the serialization fails, the file
    that export_torchscript_model writes passes test_exported_model on
    the same path, provided the comparison accepts two equal lists. *)
Theorem export_then_test_round_trip (w : World) (output_path : string) (use_trace : bool) :
  faults w (mode_op use_trace) = None → faults w JitSave = None →
  faults w JitLoad = None → (∀ l atol, allclose l l atol = true) →
  ∃ sm w1 w2,
    export_torchscript_model output_path use_trace w = (Ok sm, w1)
    ∧ files w1 !! output_path = Some (graph sm)
    ∧ test_exported_model output_path w1 = (Ok true, w2).
Proof using cast_same.
  intros Hf Hs Hl Hrefl.
  destruct (export_after_save w output_path use_trace Hf Hs) as [_ Hok].
  destruct (Hok Hl) as (w1 & cs & ls & Hrun & _ & Hfaults & Hfiles & _).
  assert (files w1 !! output_path = Some AtenAdd) as Hg
    by (rewrite Hfiles; apply lookup_insert_eq).
  destruct (test_exported_model_safe output_path w1) as (b & w2 & Htest & _ & ->);
    [by rewrite Hfaults|done|done|].
  by exists (mkScript AtenAdd), w1, w2.
Qed.


(** X15. add_tensors has no device check: with an operand that is not on
    the accelerator the failure comes from the launcher, as a ValueError
    and not as an assertion, after the output buffer was allocated; the
    buffers that existed are as they were. *)
Theorem add_tensors_host_operand (w : World) (X Y : Tensor) :
  shape X = shape Y → device X ≠ Cuda ∨ device Y ≠ Cuda →
  ∃ m w',
    add_tensors X Y w = (Raise (ValueError m), w')
    ∧ memory w' = <[fresh (dom (memory w)) := uninit w <$> seq 0 (numel X)]> (memory w)
    ∧ size (memory w') = S (size (memory w))
    ∧ ∀ p buf, memory w !! p = Some buf → memory w' !! p = Some buf.
Proof.
  intros Sh Hdev.
  pose proof (fresh_not_live (memory w)) as Hfresh.
  eexists _, (set_memory (<[fresh (dom (memory w)) := uninit w <$> seq 0 (numel X)]>
                            (memory w)) w).
  split_and!.
  - unfold add_tensors, mbind, Py_bind, bind, assert, torch_empty_like, launch.
    rewrite bool_decide_true by done. unfold ret at 1. cbn [forallb].
    assert (is_cuda X && (is_cuda Y
              && (is_cuda (mkTensor (shape X) (dtype X) (device X)
                             (fresh (dom (memory w)))) && true)) = false) as ->; [|done].
    unfold is_cuda. cbn [device].
    destruct Hdev as [H|H]; rewrite (bool_decide_false _ H); [done|].
    by rewrite andb_false_r.
  - done.
  - cbn. by apply map_size_insert_None.
  - intros p buf Hp. cbn. rewrite lookup_insert_ne; [done|]. intros <-. congruence.
Qed.

Lemma torch_full_cpu_run (n : nat) (v : Q) (d : DType) (w : World) :
  ∃ t w', torch_full n v d Cpu w = (Ok t, w')
          ∧ shape t = [n] ∧ dtype t = d ∧ device t = Cpu
          ∧ evolves w w' (files w) [] [].
Proof.
  unfold torch_full, new_tensor, alloc_tensor, mbind, Py_bind, bind, get,
    torch_cuda_is_available.
  rewrite bool_decide_false by done. cbn.
  eexists _, _. split; [done|]. cbn. unfold evolves. cbn. by rewrite !app_nil_r.
Qed.

Lemma torch_allclose_cells_run (a b : Tensor) (atol : Q) (w : World) :
  shape a = shape b → device a = device b →
  ∃ xs ys w', torch_allclose a b atol w = (Ok (allclose xs ys atol), w')
              ∧ evolves w w' (files w) [CAllclose a b atol (allclose xs ys atol)] [].
Proof.
  intros Sh Dv. unfold torch_allclose.
  rewrite <-Sh, broadcast_shapes_same, same_device_eq by done.
  eexists _, _, _. split; [done|]. unfold evolves. cbn. by rewrite app_nil_r.
Qed.

(** X16. The first failing case ends test_exported_model: when the model
    loads and the comparison rejects, the function returns False after
    one call of the model and one comparison, with the failure of case 1
    as its last log record; the two other cases are not run. *)
Theorem test_exported_model_stops_at_first_failure (model_path : string) (w : World) :
  faults w JitLoad = None → files w !! model_path = Some AtenAdd →
  (∀ l l' atol, allclose l l' atol = false) →
  ∃ w' x y r ex,
    test_exported_model model_path w = (Ok false, w')
    ∧ calls w'
      = calls w ++ [CBasicConfig INFO; CLoad model_path; CRandn x; CRandn y;
                    CForward (Jit (mkScript AtenAdd)) x y;
                    CAllclose r ex atol_1e_6 false]
    ∧ log w'
      = log w ++ [mkLog INFO ("加载模型: " +:+ model_path); mkLog INFO "测试用例 1...";
                  mkLog ERROR "✗ 测试用例 1 失败"].
Proof.
  intros Hf Hg Hnever.
  destruct (call_run (CBasicConfig INFO) w) as (w1 & R1 & E1).
  destruct (logging_run INFO ("加载模型: " +:+ model_path) w1) as (w2 & R2 & E2).
  pose proof (evolves_step _ _ _ _ _ _ _ _ E1 E2) as C2.
  assert (faults w2 JitLoad = None) as Hf2 by (by rewrite (evolves_faults _ _ _ _ _ _ C2)).
  assert (files w2 !! model_path = Some AtenAdd) as Hg2.
  { destruct C2 as (_ & _ & -> & _). done. }
  destruct (torch_jit_load_run model_path AtenAdd w2 Hf2 Hg2) as (w3 & R3 & E3).
  destruct (torch_randn_cpu_run 100 Float32 w3) as (x0 & w4 & R4 & Sx0 & _ & Dx0 & E4).
  destruct (torch_randn_cpu_run 100 Float32 w4) as (y0 & w5 & R5 & Sy0 & _ & Dy0 & E5).
  destruct (torch_full_cpu_run 50 0 Float32 w5) as (x1 & w6 & R6 & _ & _ & _ & E6).
  destruct (torch_full_cpu_run 50 1 Float32 w6) as (y1 & w7 & R7 & _ & _ & _ & E7).
  destruct (torch_full_cpu_run 200 (1 # 2) Float32 w7) as (x2 & w8 & R8 & _ & _ & _ & E8).
  destruct (torch_full_cpu_run 200 (- 1 # 2) Float32 w8) as (y2 & w9 & R9 & _ & _ & _ & E9).
  destruct (logging_run INFO "测试用例 1..." w9) as (w10 & R10 & E10).
  destruct (forward_run (Jit (mkScript AtenAdd)) x0 y0 w10)
    as (r & w11 & R11 & Sr & Dr & E11); [congruence|congruence|].
  destruct (torch_add_same_shape_run x0 y0 w11)
    as (ex & w12 & R12 & Sex & Dex & E12); [congruence|congruence|].
  destruct (torch_allclose_cells_run r ex atol_1e_6 w12)
    as (cr & cex & w13 & R13 & E13); [congruence|congruence|].
  rewrite Hnever in R13, E13.
  destruct (logging_run ERROR "✗ 测试用例 1 失败" w13) as (w14 & R14 & E14).
  pose proof (evolves_step _ _ _ _ _ _ _ _ C2 E3) as C3.
  pose proof (evolves_step _ _ _ _ _ _ _ _ C3 E4) as C4.
  pose proof (evolves_step _ _ _ _ _ _ _ _ C4 E5) as C5.
  pose proof (evolves_step _ _ _ _ _ _ _ _ C5 E6) as C6.
  pose proof (evolves_step _ _ _ _ _ _ _ _ C6 E7) as C7.
  pose proof (evolves_step _ _ _ _ _ _ _ _ C7 E8) as C8.
  pose proof (evolves_step _ _ _ _ _ _ _ _ C8 E9) as C9.
  pose proof (evolves_step _ _ _ _ _ _ _ _ C9 E10) as C10.
  pose proof (evolves_step _ _ _ _ _ _ _ _ C10 E11) as C11.
  pose proof (evolves_step _ _ _ _ _ _ _ _ C11 E12) as C12.
  pose proof (evolves_step _ _ _ _ _ _ _ _ C12 E13) as C13.
  pose proof (evolves_step _ _ _ _ _ _ _ _ C13 E14) as C14.
  rewrite ?app_nil_r, <-?app_assoc in C14. cbn [app] in C14.
  destruct C14 as (_ & _ & _ & Hcalls & Hlog).
  exists w14, x0, y0, r, ex. split_and!; [|done|done].
  unfold test_exported_model, export_setup_logging.
  rewrite (bind_ok _ _ _ _ _ R1).
  apply try_except_ok.
  rewrite (bind_ok _ _ _ _ _ R2), (bind_ok _ _ _ _ _ R3), (bind_ok _ _ _ _ _ R4),
    (bind_ok _ _ _ _ _ R5).
  unfold torch_zeros, torch_ones.
  rewrite (bind_ok _ _ _ _ _ R6), (bind_ok _ _ _ _ _ R7), (bind_ok _ _ _ _ _ R8),
    (bind_ok _ _ _ _ _ R9).
  cbn [imap for_each test_case]. cbn [Nat.add pretty].
  assert (test_case (mkScript AtenAdd) (0, (x0, y0)) None w9 = (Ok (Some false), w14))
    as Hcase.
  { unfold test_case.
    change (pretty (0 + 1)) with "1".
    rewrite (bind_ok _ _ _ _ _ R10), (bind_ok _ _ _ _ _ R11), (bind_ok _ _ _ _ _ R12),
      (bind_ok _ _ _ _ _ R13), (bind_ok _ _ _ _ _ R14). done. }
  rewrite (bind_ok _ _ _ _ _ (bind_ok _ _ _ _ _ Hcase)).
  reflexivity.
Qed.

End Pgl.


(* ===================================================================== *)
(*  A concrete instance: integer cells                                   *)
(* ===================================================================== *)

(** The parameters at integer cells: every element type adds like Z and
    conversions keep the value. *)
Definition Zadd (_ : DType) : Z → Z → Z := Z.add.
Definition Zcast (_ _ : DType) (v : Z) : Z := v.
Definition Zlit (q : Q) (_ : DType) : Z := Qnum q.
Definition Zpromote (a _ : DType) : DType := a.
Definition Zrandn (k i : nat) : Z := Z.of_nat (k + i).
Definition Zallclose (a b : list Z) (_ : Q) : bool := bool_decide (a = b).
Definition Znever_close (_ _ : list Z) (_ : Q) : bool := false.

Lemma Zcast_same (d : DType) (v : Z) : Zcast d d v = v.
Proof. reflexivity. Qed.

Lemma Zpromote_same (d : DType) : Zpromote d d = d.
Proof. reflexivity. Qed.

(** A world with an accelerator and four buffers. *)
Definition sample_memory : gmap nat (list Z) :=
  <[0 := [1; 2; 3]%Z]> (<[1 := [10; 20; 30]%Z]> (<[2 := [7]%Z]> (<[3 := [5; 6; 7]%Z]> ∅))).

Definition sample_world (cuda : bool) (f : JitOp → option Exn) : World Z :=
  mkWorld Z cuda sample_memory (λ _, 0%Z) [] 0 0 ∅ f [].

Definition no_fault (_ : JitOp) : option Exn := None.

Definition disk_full (op : JitOp) : option Exn :=
  match op with
  | JitSave => Some (RuntimeError "No space left on device")
  | _ => None
  end.

Definition w_gpu : World Z := sample_world true no_fault.
Definition w_cpu : World Z := sample_world false no_fault.

Definition x3 : Tensor := mkTensor [3] Float32 Cuda 0.
Definition y3 : Tensor := mkTensor [3] Float32 Cuda 1.
Definition y1 : Tensor := mkTensor [1] Float32 Cuda 2.
Definition y3_f64 : Tensor := mkTensor [3] Float64 Cuda 1.
Definition y3_host : Tensor := mkTensor [3] Float32 Cpu 3.
Definition y2 : Tensor := mkTensor [2] Float32 Cuda 1.

(** A comparison that accepts exactly the equal lists accepts a list
    compared with itself. *)
Lemma Zallclose_refl (l : list Z) (atol : Q) : Zallclose l l atol = true.
Proof. by apply bool_decide_eq_true_2. Qed.

(** The reload fails; tracing, scripting and saving work. *)
Definition unreadable (op : JitOp) : option Exn :=
  match op with
  | JitLoad => Some (RuntimeError "PytorchStreamReader failed reading zip archive")
  | _ => None
  end.

(** A host without accelerator on whose disk the exported graph lies. *)
Definition w_saved : World Z :=
  mkWorld Z false sample_memory (λ _, 0%Z) [] 0 0 (<["m.pt" := AtenAdd]> ∅) no_fault [].

(* --------------------------------------------------------------------- *)
(*  The theorems at the instance                                         *)
(* --------------------------------------------------------------------- *)




(** The attempt on [x3] and [y1] fails in the shape assertion; the
    dispatcher logs the warning and returns what the fallback returns. *)
Lemma add_dispatch_witness :
  eligible Z w_gpu x3 y1 true = true
  ∧ triton_add Z Zadd Zcast Zlit Zpromote x3 y1 w_gpu
    = (Raise (AssertionError "输入张量形状必须相同"), w_gpu)
  ∧ valid Z w_gpu x3 ∧ valid Z w_gpu y1
  ∧ add Z Zadd Zcast Zlit Zpromote x3 y1 true w_gpu
    = pytorch_add Z Zadd Zcast x3 y1
        (add_log Z (fallback_warning (AssertionError "输入张量形状必须相同")) w_gpu)
  ∧ outcome Z (add Z Zadd Zcast Zlit Zpromote x3 y1 true w_gpu)
    = outcome Z (pytorch_add Z Zadd Zcast x3 y1 w_gpu)
  ∧ eligible Z w_cpu x3 y1 true = false
  ∧ add Z Zadd Zcast Zlit Zpromote x3 y1 true w_cpu = pytorch_add Z Zadd Zcast x3 y1 w_cpu.
Proof.
  assert (valid Z w_gpu x3) as Vx by (exists [1; 2; 3]%Z; split; reflexivity).
  assert (valid Z w_gpu y1) as Vy by (exists [7]%Z; split; reflexivity).
  destruct (add_dispatch Z Zadd Zcast Zlit Zpromote Zcast_same Zpromote_same
              w_gpu x3 y1 true) as [Hyes _].
  destruct (Hyes eq_refl) as [_ Hraise].
  destruct (Hraise (AssertionError "输入张量形状必须相同") w_gpu eq_refl)
    as (Hadd & _ & Hout).
  destruct (add_dispatch Z Zadd Zcast Zlit Zpromote Zcast_same Zpromote_same
              w_cpu x3 y1 true) as [_ Hno].
  split_and!.
  - reflexivity.
  - reflexivity.
  - exact Vx.
  - exact Vy.
  - exact Hadd.
  - exact (Hout Vx Vy).
  - reflexivity.
  - exact (Hno eq_refl).
Defined.

Lemma triton_add_precondition_witness :
  ((shape x3 ≠ shape y1 ∨ dtype x3 ≠ dtype y1 ∨ device x3 ≠ Cuda ∨ device y1 ≠ Cuda)
   ∧ ∃ m, triton_add Z Zadd Zcast Zlit Zpromote x3 y1 w_gpu
          = (Raise (AssertionError m), w_gpu))
  ∧ ((shape x3 = shape y3 ∧ dtype x3 = dtype y3 ∧ device x3 = Cuda ∧ device y3 = Cuda)
     ∧ ∀ m, (triton_add Z Zadd Zcast Zlit Zpromote x3 y3 w_gpu).1
            ≠ Raise (AssertionError m)).
Proof.
  split.
  - assert (shape x3 ≠ shape y1 ∨ dtype x3 ≠ dtype y1 ∨ device x3 ≠ Cuda ∨ device y1 ≠ Cuda)
      as Hbad by (left; vm_compute; discriminate).
    split; [exact Hbad|].
    exact (proj1 (triton_add_precondition Z Zadd Zcast Zlit Zpromote w_gpu x3 y1) Hbad).
  - split; [repeat split; reflexivity|].
    exact (proj2 (triton_add_precondition Z Zadd Zcast Zlit Zpromote w_gpu x3 y3)
             eq_refl eq_refl eq_refl eq_refl).
Defined.

(** C5, as stated, fails on the code: the fallback broadcasts a size of
    one, promotes float32 with float64, and refuses operands of identical
    shape and dtype that live on different devices. *)
Lemma pytorch_add_claim_counterexample :
  (shape x3 ≠ shape y1
   ∧ outcome Z (pytorch_add Z Zadd Zcast x3 y1 w_gpu)
     = Ok ([3], Float32, Cuda, Some [8; 9; 10]%Z))
  ∧ (dtype x3 ≠ dtype y3_f64
     ∧ outcome Z (pytorch_add Z Zadd Zcast x3 y3_f64 w_gpu)
       = Ok ([3], Float64, Cuda, Some [11; 22; 33]%Z))
  ∧ (shape x3 = shape y3_host ∧ dtype x3 = dtype y3_host
     ∧ pytorch_add Z Zadd Zcast x3 y3_host w_gpu
       = (Raise (RuntimeError "Expected all tensors to be on the same device"), w_gpu)).
Proof.
  split_and!; try reflexivity; vm_compute; discriminate.
Qed.

Lemma pytorch_add_matching_witness :
  ((shape x3 = shape y3 ∧ dtype x3 = dtype y3 ∧ device x3 = device y3)
   ∧ ∃ out w',
       pytorch_add Z Zadd Zcast x3 y3 w_gpu = (Ok out, w')
       ∧ shape out = shape x3 ∧ dtype out = dtype x3 ∧ device out = device x3
       ∧ ∀ xs ys, data Z w_gpu x3 = Some xs → length xs = numel x3 →
                  data Z w_gpu y3 = Some ys → length ys = numel y3 →
                  data Z w' out = Some (zip_with (Zadd (dtype x3)) xs ys))
  ∧ (broadcast_shapes (shape x3) (shape y2) = None
     ∧ ∃ m, pytorch_add Z Zadd Zcast x3 y2 w_gpu = (Raise (RuntimeError m), w_gpu)).
Proof.
  split.
  - split; [repeat split; reflexivity|].
    exact (proj1 (pytorch_add_matching Z Zadd Zcast Zcast_same w_gpu x3 y3)
             eq_refl eq_refl eq_refl).
  - split; [reflexivity|].
    exact (proj2 (proj2 (pytorch_add_matching Z Zadd Zcast Zcast_same w_gpu x3 y2)) eq_refl).
Defined.

(** Scripting succeeds and every comparison says "not close": the export
    still returns the model. With a full disk, the failure of [save] is
    raised again. *)
Lemma export_verification_is_soft_witness :
  (faults Z (sample_world false disk_full) (mode_op true) = None
   ∧ faults Z (sample_world false disk_full) JitSave
     = Some (RuntimeError "No space left on device")
   ∧ ∃ w' cs ls,
       export_torchscript_model Z Zadd Zcast Zrandn Zallclose "m.pt" true
         (sample_world false disk_full)
       = (Raise (RuntimeError "No space left on device"), w')
       ∧ evolves Z (sample_world false disk_full) w'
           (files Z (sample_world false disk_full))
           (cs ++ [CPrintExc (RuntimeError "No space left on device")])
           (ls ++ [mkLog ERROR
                     ("模型导出失败: " +:+ str (RuntimeError "No space left on device"))]))
  ∧ (faults Z w_cpu (mode_op false) = None ∧ faults Z w_cpu JitSave = None
     ∧ faults Z w_cpu JitLoad = None
     ∧ ∃ sm w' pre tx ty r1 r2 ok,
         export_torchscript_model Z Zadd Zcast Zrandn Znever_close "m.pt" false w_cpu
         = (Ok sm, w')
         ∧ shape tx = [100] ∧ shape ty = [100]
         ∧ evolves Z w_cpu w' (<["m.pt" := graph sm]> (files Z w_cpu))
             (pre ++ [CSave sm "m.pt"; CLoad "m.pt"; CRandn tx; CRandn ty;
                      CForward (Eager TritonAddModule) tx ty;
                      CForward (Jit (mkScript (graph sm))) tx ty;
                      CAllclose r1 r2 atol_1e_6 ok])
             [mkLog INFO "开始导出TorchScript模型..."; mkLog INFO (mode_message false);
              mkLog INFO ("保存模型到: " +:+ "m.pt"); mkLog INFO "验证模型...";
              if ok then mkLog INFO "✓ 模型验证成功！"
              else mkLog WARNING "✗ 模型验证失败 - 结果不一致";
              mkLog INFO "✓ TorchScript模型导出完成"]).
Proof.
  split.
  - split; [reflexivity|]. split; [reflexivity|].
    apply (proj1 (export_verification_is_soft Z Zadd Zcast Zrandn Zallclose
                    (sample_world false disk_full) "m.pt" true)).
    right. split; reflexivity.
  - split; [reflexivity|]. split; [reflexivity|]. split; [reflexivity|].
    apply (proj2 (export_verification_is_soft Z Zadd Zcast Zrandn Znever_close
                    w_cpu "m.pt" false)); reflexivity.
Defined.

Lemma no_accelerator_short_circuit_witness :
  cuda_available Z w_cpu = false
  ∧ (∃ w', validate_correctness Z Zadd Zcast Zlit Zpromote Zrandn Zallclose None w_cpu
           = (Ok false, w')
           ∧ memory Z w' = memory Z w_cpu ∧ rng Z w' = rng Z w_cpu
           ∧ clock Z w' = clock Z w_cpu
           ∧ evolves Z w_cpu w' (files Z w_cpu)
               [CBasicConfig INFO; CSetLevel "triton" WARNING]
               [mkLog WARNING "CUDA不可用，跳过GPU验证"])
  ∧ (∃ r w', benchmark_add_operations Z Zadd Zcast Zlit Zpromote Zrandn Zallclose
               nat (λ k, k) Nat.sub Nat.mul Nat.div (λ l, foldr Nat.add 0 l / length l)
               (λ k, k) 0 (λ t, bool_decide (0 < t)) (λ _ _, 0) (λ _ _, String.EmptyString)
               None 10 w_cpu
             = (Ok r, w')
             ∧ triton_times nat r = [] ∧ pytorch_times nat r = []
             ∧ speedup_ratios nat r = [] ∧ accuracy_checks nat r = []
             ∧ sizes nat r = default [1000; 10000; 100000; 1000000] None
             ∧ memory Z w' = memory Z w_cpu ∧ rng Z w' = rng Z w_cpu
             ∧ clock Z w' = clock Z w_cpu
             ∧ evolves Z w_cpu w' (files Z w_cpu)
                 [CBasicConfig INFO; CSetLevel "triton" WARNING]
                 [mkLog WARNING "CUDA不可用，跳过GPU测试"]).
Proof.
  split; [reflexivity|].
  apply (no_accelerator_short_circuit Z Zadd Zcast Zlit Zpromote Zrandn Zallclose
           nat (λ k, k) Nat.sub Nat.mul Nat.div (λ l, foldr Nat.add 0 l / length l)
           (λ k, k) 0 (λ t, bool_decide (0 < t)) (λ _ _, 0) (λ _ _, String.EmptyString)
           w_cpu None None 10).
  reflexivity.
Defined.



Lemma add_hides_precondition_violation_witness :
  (device x3 = Cuda ∧ device y1 = Cuda ∧ cuda_available Z w_gpu = true
   ∧ (shape x3 ≠ shape y1 ∨ dtype x3 ≠ dtype y1)
   ∧ broadcast_shapes (shape x3) (shape y1) = Some [3])
  ∧ ∃ m out w',
      triton_add Z Zadd Zcast Zlit Zpromote x3 y1 w_gpu = (Raise (AssertionError m), w_gpu)
      ∧ add Z Zadd Zcast Zlit Zpromote x3 y1 true w_gpu = (Ok out, w')
      ∧ shape out = [3] ∧ dtype out = result_type x3 y1 ∧ device out = Cuda
      ∧ log Z w' = log Z w_gpu ++ [fallback_warning (AssertionError m)]
      ∧ outcome Z (add Z Zadd Zcast Zlit Zpromote x3 y1 true w_gpu)
        = outcome Z (pytorch_add Z Zadd Zcast x3 y1 w_gpu).
Proof.
  assert (shape x3 ≠ shape y1 ∨ dtype x3 ≠ dtype y1) as Hbad
    by (left; vm_compute; discriminate).
  split.
  - split_and!; try reflexivity. exact Hbad.
  - exact (add_hides_precondition_violation Z Zadd Zcast Zlit Zpromote
             w_gpu x3 y1 [3] eq_refl eq_refl eq_refl Hbad eq_refl).
Defined.

(* --------------------------------------------------------------------- *)
(*  The further properties at the instance                               *)
(* --------------------------------------------------------------------- *)





(** Sizes 3 and 2 do not broadcast: the attempt fails in its assertion,
    the fallback in the library. *)
Lemma add_raises_only_runtime_errors_witness :
  add Z Zadd Zcast Zlit Zpromote x3 y2 true w_gpu
  = (Raise (RuntimeError
       "The size of tensor a must match the size of tensor b at non-singleton dimension"),
     add_log Z (fallback_warning (AssertionError "输入张量形状必须相同")) w_gpu)
  ∧ ∃ m, RuntimeError
           "The size of tensor a must match the size of tensor b at non-singleton dimension"
         = RuntimeError m.
Proof.
  split; [reflexivity|].
  apply (add_raises_only_runtime_errors Z Zadd Zcast Zlit Zpromote w_gpu
           (add_log Z (fallback_warning (AssertionError "输入张量形状必须相同")) w_gpu)
           x3 y2 true).
  reflexivity.
Defined.





(** No file "m.pt" on the disk of [w_cpu]. *)
Lemma test_exported_model_load_error_witness :
  load_error Z w_cpu "m.pt"
  = Some (RuntimeError ("open file failed because of errno 2 on fopen: " +:+ "m.pt"))
  ∧ ∃ w',
      test_exported_model Z Zadd Zcast Zlit Zrandn Zallclose "m.pt" w_cpu = (Ok false, w')
      ∧ memory Z w' = memory Z w_cpu ∧ rng Z w' = rng Z w_cpu
      ∧ evolves Z w_cpu w' (files Z w_cpu) [CBasicConfig INFO; CLoad "m.pt"]
          [mkLog INFO ("加载模型: " +:+ "m.pt");
           mkLog ERROR
             ("模型测试失败: "
              +:+ str (RuntimeError
                         ("open file failed because of errno 2 on fopen: " +:+ "m.pt")))].
Proof.
  split; [reflexivity|].
  exact (test_exported_model_load_error Z Zadd Zcast Zlit Zrandn Zallclose "m.pt" w_cpu
           (RuntimeError ("open file failed because of errno 2 on fopen: " +:+ "m.pt"))
           eq_refl).
Defined.

Lemma test_exported_model_accepts_add_graph_witness :
  (faults Z w_saved JitLoad = None ∧ files Z w_saved !! "m.pt" = Some AtenAdd
   ∧ ∀ l atol, Zallclose l l atol = true)
  ∧ ∃ w',
      test_exported_model Z Zadd Zcast Zlit Zrandn Zallclose "m.pt" w_saved = (Ok true, w')
      ∧ files Z w' = files Z w_saved.
Proof.
  split; [split_and!; [reflexivity|reflexivity|exact Zallclose_refl]|].
  exact (test_exported_model_accepts_add_graph Z Zadd Zcast Zlit Zrandn Zallclose
           Zcast_same "m.pt" w_saved eq_refl eq_refl Zallclose_refl).
Defined.

Lemma export_reload_failure_keeps_artifact_witness :
  (faults Z (sample_world false unreadable) (mode_op true) = None
   ∧ faults Z (sample_world false unreadable) JitSave = None
   ∧ faults Z (sample_world false unreadable) JitLoad
     = Some (RuntimeError "PytorchStreamReader failed reading zip archive"))
  ∧ ∃ w' cs ls,
      export_torchscript_model Z Zadd Zcast Zrandn Zallclose "m.pt" true
        (sample_world false unreadable)
      = (Raise (RuntimeError "PytorchStreamReader failed reading zip archive"), w')
      ∧ files Z w' = <["m.pt" := AtenAdd]> (files Z (sample_world false unreadable))
      ∧ calls Z w'
        = calls Z (sample_world false unreadable) ++ cs
          ++ [CSave (mkScript AtenAdd) "m.pt"; CLoad "m.pt";
              CPrintExc (RuntimeError "PytorchStreamReader failed reading zip archive")]
      ∧ log Z w'
        = log Z (sample_world false unreadable) ++ ls
          ++ [mkLog INFO "验证模型...";
              mkLog ERROR
                ("模型导出失败: "
                 +:+ str (RuntimeError "PytorchStreamReader failed reading zip archive"))].
Proof.
  split; [split_and!; reflexivity|].
  exact (export_reload_failure_keeps_artifact Z Zadd Zcast Zrandn Zallclose
           (sample_world false unreadable) "m.pt" true
           (RuntimeError "PytorchStreamReader failed reading zip archive")
           eq_refl eq_refl eq_refl).
Defined.

Lemma export_then_test_round_trip_witness :
  (faults Z w_cpu (mode_op true) = None ∧ faults Z w_cpu JitSave = None
   ∧ faults Z w_cpu JitLoad = None ∧ ∀ l atol, Zallclose l l atol = true)
  ∧ ∃ sm w1 w2,
      export_torchscript_model Z Zadd Zcast Zrandn Zallclose "m.pt" true w_cpu = (Ok sm, w1)
      ∧ files Z w1 !! "m.pt" = Some (graph sm)
      ∧ test_exported_model Z Zadd Zcast Zlit Zrandn Zallclose "m.pt" w1 = (Ok true, w2).
Proof.
  split; [split_and!; [reflexivity|reflexivity|reflexivity|exact Zallclose_refl]|].
  exact (export_then_test_round_trip Z Zadd Zcast Zlit Zrandn Zallclose Zcast_same
           w_cpu "m.pt" true eq_refl eq_refl eq_refl Zallclose_refl).
Defined.


Lemma add_tensors_host_operand_witness :
  (shape x3 = shape y3_host ∧ (device x3 ≠ Cuda ∨ device y3_host ≠ Cuda))
  ∧ ∃ m w',
      add_tensors Z Zadd Zcast Zlit Zpromote x3 y3_host w_gpu = (Raise (ValueError m), w')
      ∧ memory Z w'
        = <[fresh (dom (memory Z w_gpu)) := uninit Z w_gpu <$> seq 0 (numel x3)]>
            (memory Z w_gpu)
      ∧ size (memory Z w') = S (size (memory Z w_gpu))
      ∧ ∀ p buf, memory Z w_gpu !! p = Some buf → memory Z w' !! p = Some buf.
Proof.
  assert (device x3 ≠ Cuda ∨ device y3_host ≠ Cuda) as Hdev
    by (right; vm_compute; discriminate).
  split; [split; [reflexivity|exact Hdev]|].
  exact (add_tensors_host_operand Z Zadd Zcast Zlit Zpromote w_gpu x3 y3_host eq_refl Hdev).
Defined.

Lemma test_exported_model_stops_at_first_failure_witness :
  (faults Z w_saved JitLoad = None ∧ files Z w_saved !! "m.pt" = Some AtenAdd
   ∧ ∀ l l' atol, Znever_close l l' atol = false)
  ∧ ∃ w' x y r ex,
      test_exported_model Z Zadd Zcast Zlit Zrandn Znever_close "m.pt" w_saved
      = (Ok false, w')
      ∧ calls Z w'
        = calls Z w_saved ++ [CBasicConfig INFO; CLoad "m.pt"; CRandn x; CRandn y;
                              CForward (Jit (mkScript AtenAdd)) x y;
                              CAllclose r ex atol_1e_6 false]
      ∧ log Z w'
        = log Z w_saved ++ [mkLog INFO ("加载模型: " +:+ "m.pt"); mkLog INFO "测试用例 1...";
                            mkLog ERROR "✗ 测试用例 1 失败"].
Proof.
  split; [split_and!; [reflexivity|reflexivity|reflexivity]|].
  exact (test_exported_model_stops_at_first_failure Z Zadd Zcast Zlit Zrandn Znever_close
           "m.pt" w_saved eq_refl eq_refl (λ _ _ _, eq_refl)).
Defined.
